(** * SessionReplayer: the activity-monitor event models and their storage

    A shallow embedding of [src/activity_monitor/models.py] and
    [src/activity_monitor/storage.py].

    [models.py] declares pydantic models: a class is a list of typed fields,
    each required or carrying a default, and building an instance validates an
    untyped record against these declarations.  Here every class is a record
    of the validated field values together with its validator, a function from
    an untyped Python value to either the record or the list of validation
    errors.  [storage.py] is stateful: [store_event] is a computation over the
    database session in a state-and-exception monad. *)

From Stdlib Require Import ZArith String List.
From Stdlib Require Import Floats.SpecFloat.
From stdpp Require Import gmap strings list fin_maps.

Set Warnings "-register-all".
Open Scope string_scope.
Open Scope list_scope.
Open Scope Z_scope.

(** ** Python values *)

(** [uuid.UUID], by its 128-bit integer value ([UUID.int]). *)
Definition UUID := N.

(** [datetime.datetime], by its attributes. *)
Record datetime := mk_datetime {
  year : Z; month : Z; day : Z;
  hour : Z; minute : Z; second : Z; microsecond : Z
}.

(** The untyped values a record handed to a model is made of: what a decoded
    JSON document holds, and the [UUID] and [datetime] objects a caller may
    pass directly.  A [dict] is keyed by strings, and two dicts are equal when
    they hold the same items, as in Python; a [float] is an IEEE-754
    double. *)
Inductive pyval :=
  | VNone
  | VBool (b : bool)
  | VInt (z : Z)
  | VFloat (f : spec_float)
  | VStr (s : string)
  | VUuid (u : UUID)
  | VDatetime (t : datetime)
  | VList (l : list pyval)
  | VDict (d : gmap string pyval).

(** [float(z)]: the double nearest to an integer. *)
Definition float_of_int (z : Z) : spec_float := binary_normalize 53 1024 z 0 false.

(** The integer a double is equal to, when it is one: no infinity, no NaN, no
    fractional part. *)
Definition float_as_int (f : spec_float) : option Z :=
  match f with
  | S754_zero _ => Some 0
  | S754_finite s m e =>
      let n := if s then Z.neg m else Z.pos m in
      if 0 <=? e then Some (n * 2 ^ e)
      else if Z.pos m mod 2 ^ (- e) =? 0 then Some (n / 2 ^ (- e))
      else None
  | _ => None
  end.

(** The integers of 64 bits. *)
Definition is_i64 (z : Z) : bool := (- 2 ^ 63 <=? z) && (z <? 2 ^ 63).

(** The integer of a double as a 64-bit integer: the doubles strictly between
    [-2^63] and [2^63]. *)
Definition fits_i64 (z : Z) : bool := (- 2 ^ 63 <? z) && (z <? 2 ^ 63).

Definition float_as_i64 (f : spec_float) : option Z :=
  match float_as_int f with
  | Some z => if fits_i64 z then Some z else None
  | None => None
  end.

Definition is_finite (f : spec_float) : bool :=
  match f with
  | S754_infinity _ | S754_nan => false
  | _ => true
  end.

(** ** Validation errors *)

(** An item of an error location: a field name, dict key or union member name,
    or a list index. *)
Inductive LocItem :=
  | LStr (s : string)
  | LInt (i : nat).

Inductive ErrorType :=
  | missing
  | string_type
  | int_type | int_parsing | int_from_float | int_parsing_size | finite_number
  | float_type | float_parsing
  | bool_type | bool_parsing
  | uuid_type | uuid_parsing
  | datetime_type | datetime_parsing
  | list_type
  | dict_type
  | model_type (cls : string)
  | model_attributes_type.

(** One line of a [ValidationError]: where, and what went wrong. *)
Record ErrorDetails := mk_error { loc : list LocItem; typ : ErrorType }.

(** The outcome of validating a value: the validated value, or every error
    found. *)
Inductive result (A : Type) :=
  | Ok (a : A)
  | Err (es : list ErrorDetails).
Arguments Ok {A} a.
Arguments Err {A} es.

Definition errors {A} (r : result A) : list ErrorDetails :=
  match r with Ok _ => [] | Err es => es end.

Definition is_Ok {A} (r : result A) : bool :=
  match r with Ok _ => true | Err _ => false end.

Definition result_map {A B} (f : A → B) (r : result A) : result B :=
  match r with Ok a => Ok (f a) | Err es => Err es end.

(** Fields are validated independently: when several fail, the errors of all
    of them are reported, in field order. *)
Definition result_ap {A B} (rf : result (A → B)) (ra : result A) : result B :=
  match rf, ra with
  | Ok f, Ok a => Ok (f a)
  | Ok _, Err es => Err es
  | Err es, Ok _ => Err es
  | Err es1, Err es2 => Err (es1 ++ es2)
  end.

Notation "f <$$> r" := (result_map f r) (at level 61, left associativity).
Notation "rf <**> ra" := (result_ap rf ra) (at level 61, left associativity).

Definition under (i : LocItem) (e : ErrorDetails) : ErrorDetails :=
  {| loc := i :: loc e; typ := typ e |}.

(** Errors found inside a field, element or union member are reported under
    its name or index. *)
Definition at_loc {A} (i : LocItem) (r : result A) : result A :=
  match r with Ok a => Ok a | Err es => Err (under i <$> es) end.

Definition fail {A} (t : ErrorType) : result A := Err [ {| loc := []; typ := t |} ].

Definition sequence {A} (rs : list (result A)) : result (list A) :=
  foldr (λ r acc, cons <$$> r <**> acc) (Ok []) rs.

(** ** What validation takes from outside [models.py]

    pydantic's parsers of strings and timestamps into the scalar types, and
    the clock [datetime.now] reads. *)
Record Env := mk_env {
  str_as_int : string → option Z;
  str_as_float : string → option spec_float;
  str_as_bool : string → option bool;
  str_as_uuid : string → option UUID;
  str_as_datetime : string → option datetime;
  timestamp_as_datetime : spec_float → option datetime;
  now : datetime
}.

Definition parsed {A} (t : ErrorType) (o : option A) : result A :=
  match o with Some a => Ok a | None => fail t end.

(** ** Model configuration

    [class Config] of a model.  The classes of [models.py] set [orm_mode] and
    [from_attributes] or nothing at all; [frozen] is never set and keeps
    pydantic's default. *)
Record Config := mk_config {
  orm_mode : bool;
  from_attributes : bool;
  frozen : bool
}.

Definition default_config : Config :=
  {| orm_mode := false; from_attributes := false; frozen := false |}.

Section Validators.
Variable env : Env.

(** *** Field types

    Validation is in pydantic's lax mode: a value of the declared type is
    taken as it is, some values of other types are converted.  A Python [int]
    is unbounded and is taken as it is by an [int] field; a [float] becomes an
    [int] only within 64 bits, and an [int] a [float] only within the range of
    doubles. *)

Definition str_v (v : pyval) : result string :=
  match v with
  | VStr s => Ok s
  | _ => fail string_type
  end.

Definition int_v (v : pyval) : result Z :=
  match v with
  | VInt z => Ok z
  | VBool b => Ok (Z.b2z b)
  | VFloat f =>
      if is_finite f then
        match float_as_int f with
        | Some z => if fits_i64 z then Ok z else fail int_parsing_size
        | None => fail int_from_float
        end
      else fail finite_number
  | VStr s => parsed int_parsing (str_as_int env s)
  | _ => fail int_type
  end.

Definition float_v (v : pyval) : result spec_float :=
  match v with
  | VFloat f => Ok f
  | VInt z => if is_finite (float_of_int z) then Ok (float_of_int z) else fail float_type
  | VBool b => Ok (float_of_int (Z.b2z b))
  | VStr s => parsed float_parsing (str_as_float env s)
  | _ => fail float_type
  end.

Definition bool_of_int (z : Z) : option bool :=
  if z =? 0 then Some false else if z =? 1 then Some true else None.

Definition bool_v (v : pyval) : result bool :=
  match v with
  | VBool b => Ok b
  | VInt z => if is_i64 z then parsed bool_parsing (bool_of_int z) else fail bool_type
  | VFloat f =>
      match float_as_i64 f with
      | Some z => parsed bool_parsing (bool_of_int z)
      | None => fail bool_type
      end
  | VStr s => parsed bool_parsing (str_as_bool env s)
  | _ => fail bool_type
  end.

Definition uuid_v (v : pyval) : result UUID :=
  match v with
  | VUuid u => Ok u
  | VStr s => parsed uuid_parsing (str_as_uuid env s)
  | _ => fail uuid_type
  end.

Definition datetime_v (v : pyval) : result datetime :=
  match v with
  | VDatetime t => Ok t
  | VStr s => parsed datetime_parsing (str_as_datetime env s)
  | VInt z => parsed datetime_parsing (timestamp_as_datetime env (float_of_int z))
  | VFloat f => parsed datetime_parsing (timestamp_as_datetime env f)
  | _ => fail datetime_type
  end.

(** [List[T]]: every element is validated, in order; an error inside
    element [i] is reported under [i]. *)
Definition list_v {A} (item : pyval → result A) (v : pyval) : result (list A) :=
  match v with
  | VList l => sequence (imap (λ i x, at_loc (LInt i) (item x)) l)
  | _ => fail list_type
  end.

Definition item_v {A} (item : pyval → result A) (kx : string * pyval) : result (string * A) :=
  pair kx.1 <$$> at_loc (LStr kx.1) (item kx.2).

(** [Dict[str, T]]: every value is validated, whatever its key; an error
    inside the value at key [k] is reported under [k]. *)
Definition dict_v {A} (item : pyval → result A) (v : pyval) : result (gmap string A) :=
  match v with
  | VDict d => list_to_map <$$> sequence (item_v item <$> map_to_list d)
  | _ => fail dict_type
  end.

(** *** Fields of a model, looked up in the input record.  Keys of the
    record that name no field are ignored. *)

(** [Field(...)]: a required field. *)
Definition required {A} (d : gmap string pyval) (name : string)
    (v : pyval → result A) : result A :=
  match d !! name with
  | Some x => at_loc (LStr name) (v x)
  | None => Err [ {| loc := [LStr name]; typ := missing |} ]
  end.

(** [Field(default=...)] and [Field(default_factory=...)]: when the field
    is absent the default is taken, unvalidated. *)
Definition optional {A} (d : gmap string pyval) (name : string)
    (v : pyval → result A) (default : A) : result A :=
  match d !! name with
  | Some x => at_loc (LStr name) (v x)
  | None => Ok default
  end.

(** The record a model is built from: a dict.  Under [from_attributes] an
    object that is not of a builtin or [datetime] type is read through its
    attributes; of the values here that is a [UUID], which has no attribute
    named as a field of any model, so that it is read as the empty record. *)
Definition model_input (cfg : Config) (cls : string) (v : pyval) : result (gmap string pyval) :=
  match v with
  | VDict d => Ok d
  | VUuid _ => if from_attributes cfg then Ok ∅ else fail (model_type cls)
  | _ => fail (if from_attributes cfg then model_attributes_type else model_type cls)
  end.

End Validators.

(** ** models.py: the payloads *)

(** [class ClickPayload(BaseModel)] *)
Record ClickPayload := mk_ClickPayload {
  element_id : string;
  element_classes : list string;
  position : gmap string Z
}.

(** [class ScrollPayload(BaseModel)] *)
Record ScrollPayload := mk_ScrollPayload {
  scroll_depth_px : Z;
  scroll_depth_percent : spec_float;
  viewport_height : Z;
  document_height : Z
}.

(** [class MouseMovementPayload(BaseModel)] *)
Record MouseMovementPayload := mk_MouseMovementPayload {
  positions : list (gmap string Z);
  button : string;
  duration_ms : Z
}.

(** [class KeypressPayload(BaseModel)] *)
Record KeypressPayload := mk_KeypressPayload {
  key : string;
  code : string;
  alt_key : bool;
  ctrl_key : bool;
  shift_key : bool;
  meta_key : bool;
  target_element_id : string
}.

(** [class WindowResizePayload(BaseModel)] *)
Record WindowResizePayload := mk_WindowResizePayload {
  old_width : Z;
  old_height : Z;
  new_width : Z;
  new_height : Z
}.

(** ** models.py: the events *)

(** [class BaseEvent(BaseModel)] and the two fields each of its five
    subclasses adds, [event_type: str] and [payload], the latter of the
    subclass's own payload class [P]. *)
Record Event (P : Type) := mk_Event {
  session_id : UUID;
  website_id : UUID;
  url : string;
  timestamp : datetime;
  event_type : string;
  payload : P
}.
Arguments mk_Event {P}.
Arguments session_id {P}.
Arguments website_id {P}.
Arguments url {P}.
Arguments timestamp {P}.
Arguments event_type {P}.
Arguments payload {P}.

(** [class Config] of [BaseEvent], inherited by the five event classes. *)
Definition BaseEvent_Config : Config :=
  {| orm_mode := true; from_attributes := true; frozen := frozen default_config |}.

Definition ClickEvent := Event ClickPayload.
Definition ScrollEvent := Event ScrollPayload.
Definition MouseMovementEvent := Event MouseMovementPayload.
Definition KeypressEvent := Event KeypressPayload.
Definition WindowResizeEvent := Event WindowResizePayload.

(** [EventModel = Union[ClickEvent, ScrollEvent, MouseMovementEvent,
    KeypressEvent, WindowResizeEvent]]: a value of the union is an instance of
    one of the five classes. *)
Inductive EventModel :=
  | IsClickEvent (e : ClickEvent)
  | IsScrollEvent (e : ScrollEvent)
  | IsMouseMovementEvent (e : MouseMovementEvent)
  | IsKeypressEvent (e : KeypressEvent)
  | IsWindowResizeEvent (e : WindowResizeEvent).

(** [class BatchEventPayload(BaseModel)] *)
Record BatchEventPayload := mk_BatchEventPayload {
  events : list EventModel
}.

Definition BatchEventPayload_Config : Config :=
  {| orm_mode := true; from_attributes := true; frozen := frozen default_config |}.

(** ** Resolution of a [Union]

    pydantic resolves a [Union] in its default, smart mode: the input is
    validated against every member, and among the members that accept it the
    best match is kept.  A match is measured by the number of fields the input
    sets, in the model and in the models nested in it, and by its exactness;
    matches with the same number of fields are compared by exactness, and
    equal matches by the order of the members, the earlier one winning. *)

(** How close the input was to the declared types: taken as it is ([Exact]),
    accepted in strict mode too ([Strict]), or converted ([Lax]). *)
Inductive Exactness := Lax | Strict | Exact.

Definition exactness_rank (x : Exactness) : nat :=
  match x with Lax => 0 | Strict => 1 | Exact => 2 end.

Definition meet (x y : Exactness) : Exactness :=
  if (exactness_rank x <=? exactness_rank y)%nat then x else y.

Definition meets (xs : list Exactness) : Exactness := foldr meet Exact xs.

(** The measure of a match: fields set, exactness. *)
Definition Score : Type := nat * Exactness.

(** [better cur new]: the new match replaces the current best one. *)
Definition better (cur new : Score) : bool :=
  if (cur.1 =? new.1)%nat then (exactness_rank cur.2 <? exactness_rank new.2)%nat
  else (cur.1 <? new.1)%nat.

(** A member of a union: its validator and the measure of its matches. *)
Record Member (A : Type) := mk_Member {
  member_validate : pyval → result A;
  member_score : pyval → Score
}.
Arguments mk_Member {A}.
Arguments member_validate {A}.
Arguments member_score {A}.

(** A member given by a model class: its errors are reported under the class
    name. *)
Definition member {A B} (cls : string) (inj : A → B) (validate : pyval → result A)
    (score : pyval → Score) : Member B :=
  {| member_validate := λ v, at_loc (LStr cls) (inj <$$> validate v);
     member_score := score |}.

(** The matches of the members, in the order of the members. *)
Definition successes {A} (members : list (Member A)) (v : pyval) : list (A * Score) :=
  omap (λ m, match member_validate m v with
             | Ok a => Some (a, member_score m v)
             | Err _ => None
             end) members.

(** The errors of the members, in the order of the members. *)
Definition failures {A} (members : list (Member A)) (v : pyval) : list ErrorDetails :=
  concat ((λ m, errors (member_validate m v)) <$> members).

(** The best match: each match in turn replaces the best one so far when it
    is better. *)
Fixpoint pick {A} (best : option (A * Score)) (matches : list (A * Score))
    : option (A * Score) :=
  match matches with
  | [] => best
  | x :: xs =>
      pick (match best with
            | Some b => if better b.2 x.2 then Some x else Some b
            | None => Some x
            end) xs
  end.

(** When no member accepts the input, the errors of every member are
    reported. *)
Definition union {A} (members : list (Member A)) (v : pyval) : result A :=
  match pick None (successes members v) with
  | Some (a, _) => Ok a
  | None => Err (failures members v)
  end.

(** *** The measure of a match with a model *)

(** The types of the fields, as far as exactness goes. *)
Inductive FieldType :=
  | TStr | TInt | TFloat | TBool | TUuid | TDatetime
  | TList (t : FieldType)
  | TDict (t : FieldType).

Fixpoint exactness_of (t : FieldType) (v : pyval) : Exactness :=
  match t, v with
  | TStr, VStr _ => Exact
  | TInt, VInt _ => Exact
  | TFloat, VFloat _ => Exact
  | TFloat, VInt _ => Strict
  | TBool, VBool _ => Exact
  | TUuid, VUuid _ => Exact
  | TDatetime, VDatetime _ => Exact
  | TList t, VList l => meets (exactness_of t <$> l)
  | TDict t, VDict d => meets ((λ kx, exactness_of t kx.2) <$> map_to_list d)
  | _, _ => Lax
  end.

(** The number of the fields [names] that a record sets. *)
Definition fields_set (names : list string) (d : gmap string pyval) : nat :=
  sum_list ((λ k, match d !! k with Some _ => 1 | None => 0 end)%nat <$> names).

(** The exactness of the fields of a record: that of the least exact of the
    fields it sets. *)
Definition fields_exactness (types : list (string * FieldType)) (d : gmap string pyval)
    : Exactness :=
  meets ((λ kt, match d !! kt.1 with
                | Some x => exactness_of kt.2 x
                | None => Exact
                end) <$> types).

(** A model built from a dict is no exact match: only an instance of the
    class is. *)
Definition model_score (types : list (string * FieldType)) (v : pyval) : Score :=
  match v with
  | VDict d => (fields_set types.*1 d, meet Strict (fields_exactness types d))
  | _ => (0%nat, Lax)
  end.

(** The five kinds of event. *)
Inductive Schema := Click | Scroll | MouseMovement | Keypress | WindowResize.

(** The fields of the payload classes and their types. *)
Definition payload_types (s : Schema) : list (string * FieldType) :=
  match s with
  | Click =>
      [ ("element_id", TStr); ("element_classes", TList TStr); ("position", TDict TInt) ]
  | Scroll =>
      [ ("scroll_depth_px", TInt); ("scroll_depth_percent", TFloat);
        ("viewport_height", TInt); ("document_height", TInt) ]
  | MouseMovement =>
      [ ("positions", TList (TDict TInt)); ("button", TStr); ("duration_ms", TInt) ]
  | Keypress =>
      [ ("key", TStr); ("code", TStr); ("alt_key", TBool); ("ctrl_key", TBool);
        ("shift_key", TBool); ("meta_key", TBool); ("target_element_id", TStr) ]
  | WindowResize =>
      [ ("old_width", TInt); ("old_height", TInt); ("new_width", TInt); ("new_height", TInt) ]
  end.

(** The fields of an event class but [payload], and their types. *)
Definition envelope_types : list (string * FieldType) :=
  [ ("session_id", TUuid); ("website_id", TUuid); ("url", TStr);
    ("timestamp", TDatetime); ("event_type", TStr) ].

(** The measure of a match with an event class: the fields of the event and
    of its payload that the record sets, and the least exactness among
    them. *)
Definition event_score (s : Schema) (v : pyval) : Score :=
  match v with
  | VDict d =>
      let payload_score :=
        match d !! "payload" with
        | Some x => ((1 + (model_score (payload_types s) x).1)%nat,
                     (model_score (payload_types s) x).2)
        | None => (0%nat, Exact)
        end in
      ((fields_set envelope_types.*1 d + payload_score.1)%nat,
       meet Strict (meet (fields_exactness envelope_types d) payload_score.2))
  | _ => (0%nat, Lax)
  end.

Section Models.
Variable env : Env.

Definition validate_ClickPayload (v : pyval) : result ClickPayload :=
  match model_input default_config "ClickPayload" v with
  | Ok d =>
      mk_ClickPayload
        <$$> required d "element_id" str_v
        <**> optional d "element_classes" (list_v str_v) []
        <**> required d "position" (dict_v (int_v env))
  | Err es => Err es
  end.

Definition validate_ScrollPayload (v : pyval) : result ScrollPayload :=
  match model_input default_config "ScrollPayload" v with
  | Ok d =>
      mk_ScrollPayload
        <$$> required d "scroll_depth_px" (int_v env)
        <**> required d "scroll_depth_percent" (float_v env)
        <**> required d "viewport_height" (int_v env)
        <**> required d "document_height" (int_v env)
  | Err es => Err es
  end.

Definition validate_MouseMovementPayload (v : pyval) : result MouseMovementPayload :=
  match model_input default_config "MouseMovementPayload" v with
  | Ok d =>
      mk_MouseMovementPayload
        <$$> required d "positions" (list_v (dict_v (int_v env)))
        <**> required d "button" str_v
        <**> required d "duration_ms" (int_v env)
  | Err es => Err es
  end.

Definition validate_KeypressPayload (v : pyval) : result KeypressPayload :=
  match model_input default_config "KeypressPayload" v with
  | Ok d =>
      mk_KeypressPayload
        <$$> required d "key" str_v
        <**> required d "code" str_v
        <**> optional d "alt_key" (bool_v env) false
        <**> optional d "ctrl_key" (bool_v env) false
        <**> optional d "shift_key" (bool_v env) false
        <**> optional d "meta_key" (bool_v env) false
        <**> required d "target_element_id" str_v
  | Err es => Err es
  end.

Definition validate_WindowResizePayload (v : pyval) : result WindowResizePayload :=
  match model_input default_config "WindowResizePayload" v with
  | Ok d =>
      mk_WindowResizePayload
        <$$> required d "old_width" (int_v env)
        <**> required d "old_height" (int_v env)
        <**> required d "new_width" (int_v env)
        <**> required d "new_height" (int_v env)
  | Err es => Err es
  end.

(** An event class: the fields of [BaseEvent], then [event_type] with the
    class's default [tag], then [payload] of the class's payload model. *)
Definition validate_Event {P} (cls tag : string) (validate_payload : pyval → result P)
    (v : pyval) : result (Event P) :=
  match model_input BaseEvent_Config cls v with
  | Ok d =>
      mk_Event
        <$$> required d "session_id" (uuid_v env)
        <**> required d "website_id" (uuid_v env)
        <**> required d "url" str_v
        <**> optional d "timestamp" (datetime_v env) (now env)
        <**> optional d "event_type" str_v tag
        <**> required d "payload" validate_payload
  | Err es => Err es
  end.

(** [class ClickEvent(BaseEvent)] *)
Definition validate_ClickEvent : pyval → result ClickEvent :=
  validate_Event "ClickEvent" "click" validate_ClickPayload.

(** [class ScrollEvent(BaseEvent)] *)
Definition validate_ScrollEvent : pyval → result ScrollEvent :=
  validate_Event "ScrollEvent" "scroll" validate_ScrollPayload.

(** [class MouseMovementEvent(BaseEvent)] *)
Definition validate_MouseMovementEvent : pyval → result MouseMovementEvent :=
  validate_Event "MouseMovementEvent" "mouse_move" validate_MouseMovementPayload.

(** [class KeypressEvent(BaseEvent)] *)
Definition validate_KeypressEvent : pyval → result KeypressEvent :=
  validate_Event "KeypressEvent" "keypress" validate_KeypressPayload.

(** [class WindowResizeEvent(BaseEvent)] *)
Definition validate_WindowResizeEvent : pyval → result WindowResizeEvent :=
  validate_Event "WindowResizeEvent" "window_resize" validate_WindowResizePayload.

(** The members of [EventModel], in the order of the [Union]. *)
Definition EventModel_members : list (Member EventModel) :=
  [ member "ClickEvent" IsClickEvent validate_ClickEvent (event_score Click);
    member "ScrollEvent" IsScrollEvent validate_ScrollEvent (event_score Scroll);
    member "MouseMovementEvent" IsMouseMovementEvent validate_MouseMovementEvent
      (event_score MouseMovement);
    member "KeypressEvent" IsKeypressEvent validate_KeypressEvent (event_score Keypress);
    member "WindowResizeEvent" IsWindowResizeEvent validate_WindowResizeEvent
      (event_score WindowResize) ].

Definition validate_EventModel : pyval → result EventModel :=
  union EventModel_members.

Definition validate_BatchEventPayload (v : pyval) : result BatchEventPayload :=
  match model_input BatchEventPayload_Config "BatchEventPayload" v with
  | Ok d => mk_BatchEventPayload <$$> required d "events" (list_v validate_EventModel)
  | Err es => Err es
  end.

End Models.

(** ** [model_dump]: a model instance as a plain dict *)

Definition dump_positions (m : gmap string Z) : pyval := VDict (VInt <$> m).

Definition dump_ClickPayload (p : ClickPayload) : gmap string pyval :=
  {[ "element_id" := VStr (element_id p);
     "element_classes" := VList (VStr <$> element_classes p);
     "position" := dump_positions (position p) ]}.

Definition dump_ScrollPayload (p : ScrollPayload) : gmap string pyval :=
  {[ "scroll_depth_px" := VInt (scroll_depth_px p);
     "scroll_depth_percent" := VFloat (scroll_depth_percent p);
     "viewport_height" := VInt (viewport_height p);
     "document_height" := VInt (document_height p) ]}.

Definition dump_MouseMovementPayload (p : MouseMovementPayload) : gmap string pyval :=
  {[ "positions" := VList (dump_positions <$> positions p);
     "button" := VStr (button p);
     "duration_ms" := VInt (duration_ms p) ]}.

Definition dump_KeypressPayload (p : KeypressPayload) : gmap string pyval :=
  {[ "key" := VStr (key p);
     "code" := VStr (code p);
     "alt_key" := VBool (alt_key p);
     "ctrl_key" := VBool (ctrl_key p);
     "shift_key" := VBool (shift_key p);
     "meta_key" := VBool (meta_key p);
     "target_element_id" := VStr (target_element_id p) ]}.

Definition dump_WindowResizePayload (p : WindowResizePayload) : gmap string pyval :=
  {[ "old_width" := VInt (old_width p);
     "old_height" := VInt (old_height p);
     "new_width" := VInt (new_width p);
     "new_height" := VInt (new_height p) ]}.

Definition dump_Event {P} (dump_payload : P → gmap string pyval) (e : Event P)
    : gmap string pyval :=
  {[ "session_id" := VUuid (session_id e);
     "website_id" := VUuid (website_id e);
     "url" := VStr (url e);
     "timestamp" := VDatetime (timestamp e);
     "event_type" := VStr (event_type e);
     "payload" := VDict (dump_payload (payload e)) ]}.

(** What the code does with an event of the union whatever its class:
    [k] is given the instance and the [model_dump] of its payload class. *)
Definition on_event {R} (k : ∀ P, (P → gmap string pyval) → Event P → R)
    (e : EventModel) : R :=
  match e with
  | IsClickEvent e => k _ dump_ClickPayload e
  | IsScrollEvent e => k _ dump_ScrollPayload e
  | IsMouseMovementEvent e => k _ dump_MouseMovementPayload e
  | IsKeypressEvent e => k _ dump_KeypressPayload e
  | IsWindowResizeEvent e => k _ dump_WindowResizePayload e
  end.

Definition dump_EventModel : EventModel → gmap string pyval :=
  on_event (λ P dump e, dump_Event dump e).

(** The [event_type] an instance carries. *)
Definition event_type_of : EventModel → string :=
  on_event (λ P _ e, event_type e).

(** The [default] of [event_type] in the class of an instance. *)
Definition class_event_type (e : EventModel) : string :=
  match e with
  | IsClickEvent _ => "click"
  | IsScrollEvent _ => "scroll"
  | IsMouseMovementEvent _ => "mouse_move"
  | IsKeypressEvent _ => "keypress"
  | IsWindowResizeEvent _ => "window_resize"
  end.

(** ** Attribute assignment

    [event.name = value] on an instance.  A model whose configuration is
    frozen refuses it; otherwise the attribute is replaced (the classes do not
    ask for [validate_assignment], so the value is stored as given). *)
Inductive Assignment (P : Type) :=
  | Set_session_id (u : UUID)
  | Set_website_id (u : UUID)
  | Set_url (s : string)
  | Set_timestamp (t : datetime)
  | Set_event_type (s : string)
  | Set_payload (p : P).
Arguments Set_session_id {P}.
Arguments Set_website_id {P}.
Arguments Set_url {P}.
Arguments Set_timestamp {P}.
Arguments Set_event_type {P}.
Arguments Set_payload {P}.

Definition assign {P} (e : Event P) (a : Assignment P) : Event P :=
  match a with
  | Set_session_id u => mk_Event u (website_id e) (url e) (timestamp e) (event_type e) (payload e)
  | Set_website_id u => mk_Event (session_id e) u (url e) (timestamp e) (event_type e) (payload e)
  | Set_url s => mk_Event (session_id e) (website_id e) s (timestamp e) (event_type e) (payload e)
  | Set_timestamp t => mk_Event (session_id e) (website_id e) (url e) t (event_type e) (payload e)
  | Set_event_type s => mk_Event (session_id e) (website_id e) (url e) (timestamp e) s (payload e)
  | Set_payload p => mk_Event (session_id e) (website_id e) (url e) (timestamp e) (event_type e) p
  end.

Inductive AssignmentError := frozen_instance.

Definition setattr {P} (cfg : Config) (e : Event P) (a : Assignment P)
    : AssignmentError + Event P :=
  if frozen cfg then inl frozen_instance else inr (assign e a).

(** ** storage.py *)

(** A Python exception: its class, its message ([str(e)]) and the exception
    that was being handled when it was raised ([__context__]). *)
Inductive exn :=
  | mk_exn (cls : string) (msg : string) (context : option exn).

Definition exn_str (e : exn) : string :=
  match e with mk_exn _ msg _ => msg end.

Definition exn_context (e : exn) : option exn :=
  match e with mk_exn _ _ c => c end.

(** A row of the events table: the keyword arguments [store_event] gives to
    [SqlAlchemyEventModelTable]. *)
Record Row := mk_Row {
  row_session_id : UUID;
  row_website_id : UUID;
  row_url : string;
  row_timestamp : datetime;
  row_event_type : string;
  row_payload : gmap string pyval
}.

(** The database session: the rows committed so far, and the rows added in
    the transaction that is open. *)
Record Session := mk_Session {
  committed : list Row;
  pending : list Row
}.

(** The rows a read through the session sees. *)
Definition visible (s : Session) : list Row := committed s ++ pending s.

(** Computations over the session that may raise. *)
Definition M (A : Type) : Type := Session → Session * (exn + A).

Definition ret {A} (a : A) : M A := λ s, (s, inr a).
Definition raise {A} (e : exn) : M A := λ s, (s, inl e).
Definition bind {A B} (m : M A) (k : A → M B) : M B :=
  λ s, match m s with
       | (s', inr a) => k a s'
       | (s', inl e) => (s', inl e)
       end.
(** [try: body except Exception as e: handler(e)] *)
Definition try_except {A} (body : M A) (handler : exn → M A) : M A :=
  λ s, match body s with
       | (s', inl e) => handler e s'
       | r => r
       end.

Notation "'do' x <- m 'in' k" := (bind m (λ x, k))
  (at level 10, x name, m at level 100, k at level 200).
Notation "m >> k" := (bind m (λ _, k)) (at level 65, right associativity).

Section Storage.
(** [SqlAlchemyEventModelTable] is not declared in [storage.py]: building
    the row either gives it or raises. *)
Variable SqlAlchemyEventModelTable :
  UUID → UUID → string → datetime → string → gmap string pyval → exn + Row.
(** What the database answers to [add] and to [commit] in a given state of
    the session: nothing, or the exception it raises. *)
Variable add_error : Session → Row → option exn.
Variable commit_error : Session → option exn.

Definition db_add (r : Row) : M unit :=
  λ s, match add_error s r with
       | Some e => (s, inl e)
       | None => ({| committed := committed s; pending := pending s ++ [r] |}, inr ())
       end.

Definition db_commit : M unit :=
  λ s, match commit_error s with
       | Some e => (s, inl e)
       | None => ({| committed := committed s ++ pending s; pending := [] |}, inr ())
       end.

Definition db_rollback : M unit :=
  λ s, ({| committed := committed s; pending := [] |}, inr ()).

Definition lift {A} (r : exn + A) : M A :=
  match r with inl e => raise e | inr a => ret a end.

(** The row of an event: the envelope fields as columns, the payload as its
    [model_dump]. *)
Definition event_row : EventModel → exn + Row :=
  on_event (λ P model_dump e,
    SqlAlchemyEventModelTable
      (session_id e) (website_id e) (url e) (timestamp e) (event_type e)
      (model_dump (payload e))).

(** [PostgreSQLStorageService.store_event] *)
Definition store_event (event : EventModel) : M unit :=
  try_except
    (do db_event <- lift (event_row event) in
     db_add db_event >> db_commit)
    (λ e,
       db_rollback >>
       raise (mk_exn "Exception" ("Failed to store event: " +:+ exn_str e) (Some e))).

End Storage.

(** ** What each kind of event declares *)

(** A payload of any of the five classes. *)
Inductive Payload :=
  | OfClick (p : ClickPayload)
  | OfScroll (p : ScrollPayload)
  | OfMouseMovement (p : MouseMovementPayload)
  | OfKeypress (p : KeypressPayload)
  | OfWindowResize (p : WindowResizePayload).

(** Validation against the payload class of a schema. *)
Definition validate_Payload (env : Env) (s : Schema) (v : pyval) : result Payload :=
  match s with
  | Click => OfClick <$$> validate_ClickPayload env v
  | Scroll => OfScroll <$$> validate_ScrollPayload env v
  | MouseMovement => OfMouseMovement <$$> validate_MouseMovementPayload env v
  | Keypress => OfKeypress <$$> validate_KeypressPayload env v
  | WindowResize => OfWindowResize <$$> validate_WindowResizePayload env v
  end.

(** Validation against the event class of a schema. *)
Definition validate_as (env : Env) (s : Schema) (v : pyval) : result EventModel :=
  match s with
  | Click => IsClickEvent <$$> validate_ClickEvent env v
  | Scroll => IsScrollEvent <$$> validate_ScrollEvent env v
  | MouseMovement => IsMouseMovementEvent <$$> validate_MouseMovementEvent env v
  | Keypress => IsKeypressEvent <$$> validate_KeypressEvent env v
  | WindowResize => IsWindowResizeEvent <$$> validate_WindowResizeEvent env v
  end.

(** A field declaration: its name, whether it is required ([Field(...)]) or
    has a default, and the validator of its type. *)
Record FieldInfo := mk_field {
  field_name : string;
  field_required : bool;
  field_type : Type;
  field_validator : pyval → result field_type
}.

Definition field {A} (name : string) (req : bool) (v : pyval → result A) : FieldInfo :=
  {| field_name := name; field_required := req; field_type := A; field_validator := v |}.

(** The fields the payload class of a schema declares, in their order. *)
Definition fields_of (env : Env) (s : Schema) : list FieldInfo :=
  match s with
  | Click =>
      [ field "element_id" true str_v;
        field "element_classes" false (list_v str_v);
        field "position" true (dict_v (int_v env)) ]
  | Scroll =>
      [ field "scroll_depth_px" true (int_v env);
        field "scroll_depth_percent" true (float_v env);
        field "viewport_height" true (int_v env);
        field "document_height" true (int_v env) ]
  | MouseMovement =>
      [ field "positions" true (list_v (dict_v (int_v env)));
        field "button" true str_v;
        field "duration_ms" true (int_v env) ]
  | Keypress =>
      [ field "key" true str_v;
        field "code" true str_v;
        field "alt_key" false (bool_v env);
        field "ctrl_key" false (bool_v env);
        field "shift_key" false (bool_v env);
        field "meta_key" false (bool_v env);
        field "target_element_id" true str_v ]
  | WindowResize =>
      [ field "old_width" true (int_v env);
        field "old_height" true (int_v env);
        field "new_width" true (int_v env);
        field "new_height" true (int_v env) ]
  end.



(** The defaults of [event_type] in the five event classes. *)
Definition known_event_types : list string :=
  ["click"; "scroll"; "mouse_move"; "keypress"; "window_resize"].

(** [event.event_type = tag], whatever the class of the event. *)
Definition with_event_type (tag : string) (e : EventModel) : EventModel :=
  match e with
  | IsClickEvent e => IsClickEvent (assign e (Set_event_type tag))
  | IsScrollEvent e => IsScrollEvent (assign e (Set_event_type tag))
  | IsMouseMovementEvent e => IsMouseMovementEvent (assign e (Set_event_type tag))
  | IsKeypressEvent e => IsKeypressEvent (assign e (Set_event_type tag))
  | IsWindowResizeEvent e => IsWindowResizeEvent (assign e (Set_event_type tag))
  end.

(** ** Resolution as the specification words it

    "attempt structural matching against each payload schema in a fixed
    precedence order (Click, Scroll, MouseMovement, Keypress, WindowResize)
    and accept the first schema that fully validates". *)

Definition result_option {A} (r : result A) : option A :=
  match r with Ok a => Some a | Err _ => None end.

Definition precedence : list Schema :=
  [Click; Scroll; MouseMovement; Keypress; WindowResize].

(** The event a record gives when it fully validates against a schema. *)
Definition validates (env : Env) (s : Schema) (v : pyval) : option EventModel :=
  result_option (validate_as env s v).

Fixpoint first_valid (env : Env) (schemas : list Schema) (v : pyval) : option EventModel :=
  match schemas with
  | [] => None
  | s :: rest =>
      match validates env s v with
      | Some e => Some e
      | None => first_valid env rest v
      end
  end.

Definition structural_match (env : Env) (v : pyval) : option EventModel :=
  first_valid env precedence v.

(** ** Sample inputs *)

Definition new_year : datetime := mk_datetime 2024 1 1 0 0 0 0.

(** An environment whose parsers accept no string at all: only values that
    are already of the declared type, and numbers given for numbers, pass. *)
Definition strict_env : Env :=
  {| str_as_int := λ _, None; str_as_float := λ _, None; str_as_bool := λ _, None;
     str_as_uuid := λ _, None; str_as_datetime := λ _, None;
     timestamp_as_datetime := λ _, None; now := new_year |}.

Definition click_payload_input : gmap string pyval :=
  {[ "element_id" := VStr "buy";
     "position" := VDict {[ "x" := VInt 10; "y" := VInt 20 ]} ]}.

Definition buy_click : ClickPayload :=
  {| element_id := "buy"; element_classes := []; position := {[ "x" := 10; "y" := 20 ]} |}.

(** A click record that gives no [event_type]. *)
Definition untagged_click_input : gmap string pyval :=
  {[ "session_id" := VUuid 1%N; "website_id" := VUuid 2%N;
     "url" := VStr "https://shop.example/"; "timestamp" := VDatetime new_year;
     "payload" := VDict click_payload_input ]}.

(** The same record, labelled as a scroll. *)
Definition mislabelled_click_input : gmap string pyval :=
  <["event_type" := VStr "scroll"]> untagged_click_input.

Definition click_event (tag : string) : ClickEvent :=
  {| session_id := 1%N; website_id := 2%N; url := "https://shop.example/";
     timestamp := new_year; event_type := tag; payload := buy_click |}.

Definition click_with_z_input : gmap string pyval :=
  {[ "element_id" := VStr "buy";
     "position" := VDict {[ "x" := VInt 10; "y" := VInt 20; "z" := VInt 5 ]} ]}.

Definition click_with_z : ClickPayload :=
  {| element_id := "buy"; element_classes := [];
     position := {[ "x" := 10; "y" := 20; "z" := 5 ]} |}.

Definition empty_batch_input : gmap string pyval := {[ "events" := VList [] ]}.

(** A click payload with three offending fields: no [element_id], a class
    that is not a string, a coordinate that is not a number. *)
Definition faulty_click_input : gmap string pyval :=
  {[ "element_classes" := VList [VStr "primary"; VInt 3];
     "position" := VDict {[ "x" := VInt 10; "y" := VStr "low" ]} ]}.

(** A table that takes every row, a database that accepts every [add] and
    loses the connection at [commit]. *)
Definition sample_table (sid wid : UUID) (u : string) (ts : datetime) (et : string)
    (p : gmap string pyval) : exn + Row :=
  inr (mk_Row sid wid u ts et p).

Definition lost_connection : exn := mk_exn "OperationalError" "connection lost" None.

Definition add_succeeds : Session → Row → option exn := λ _ _, None.

Definition commit_fails : Session → option exn := λ _, Some lost_connection.

Definition empty_session : Session := {| committed := []; pending := [] |}.

(** ** models.py: the request and the response *)

Module BatchEventRequest.
(** [class BatchEventRequest(BaseModel)] *)
Record t := mk {
  payload : BatchEventPayload
}.

Definition Config : Config :=
  {| orm_mode := true; from_attributes := true; frozen := frozen default_config |}.

Definition validate (env : Env) (v : pyval) : result t :=
  match model_input Config "BatchEventRequest" v with
  | Ok d => mk <$$> required d "payload" (validate_BatchEventPayload env)
  | Err es => Err es
  end.
End BatchEventRequest.

(** [class BatchEventResponse(BaseModel)] *)
Record BatchEventResponse := mk_BatchEventResponse {
  success : bool;
  processed_event_count : Z;
  message : string
}.

Definition BatchEventResponse_Config : Config :=
  {| orm_mode := true; from_attributes := true; frozen := frozen default_config |}.

Definition validate_BatchEventResponse (env : Env) (v : pyval) : result BatchEventResponse :=
  match model_input BatchEventResponse_Config "BatchEventResponse" v with
  | Ok d =>
      mk_BatchEventResponse
        <$$> required d "success" (bool_v env)
        <**> required d "processed_event_count" (int_v env)
        <**> required d "message" str_v
  | Err es => Err es
  end.

(** ** [model_dump] of the batch models *)

Definition dump_BatchEventPayload (b : BatchEventPayload) : gmap string pyval :=
  {[ "events" := VList ((λ e, VDict (dump_EventModel e)) <$> events b) ]}.

Definition dump_BatchEventRequest (r : BatchEventRequest.t) : gmap string pyval :=
  {[ "payload" := VDict (dump_BatchEventPayload (BatchEventRequest.payload r)) ]}.

Definition dump_BatchEventResponse (r : BatchEventResponse) : gmap string pyval :=
  {[ "success" := VBool (success r);
     "processed_event_count" := VInt (processed_event_count r);
     "message" := VStr (message r) ]}.

(** ** Views of an event and of a payload, whatever the class *)

(** The names of the fields of an event class: those of [BaseEvent], then
    [event_type] and [payload]. *)
Definition event_field_names : list string :=
  ["session_id"; "website_id"; "url"; "timestamp"; "event_type"; "payload"].

(** The fields of an event class that are declared with [Field(...)]. *)
Definition required_event_fields : list string :=
  ["session_id"; "website_id"; "url"; "payload"].

Definition timestamp_of : EventModel → datetime :=
  on_event (λ P _ e, timestamp e).

(** [event.timestamp = t], whatever the class of the event. *)
Definition with_timestamp (t : datetime) (e : EventModel) : EventModel :=
  match e with
  | IsClickEvent e => IsClickEvent (assign e (Set_timestamp t))
  | IsScrollEvent e => IsScrollEvent (assign e (Set_timestamp t))
  | IsMouseMovementEvent e => IsMouseMovementEvent (assign e (Set_timestamp t))
  | IsKeypressEvent e => IsKeypressEvent (assign e (Set_timestamp t))
  | IsWindowResizeEvent e => IsWindowResizeEvent (assign e (Set_timestamp t))
  end.

(** The class of a payload, and its [model_dump]. *)
Definition schema_of (p : Payload) : Schema :=
  match p with
  | OfClick _ => Click
  | OfScroll _ => Scroll
  | OfMouseMovement _ => MouseMovement
  | OfKeypress _ => Keypress
  | OfWindowResize _ => WindowResize
  end.

Definition dump_Payload (p : Payload) : gmap string pyval :=
  match p with
  | OfClick p => dump_ClickPayload p
  | OfScroll p => dump_ScrollPayload p
  | OfMouseMovement p => dump_MouseMovementPayload p
  | OfKeypress p => dump_KeypressPayload p
  | OfWindowResize p => dump_WindowResizePayload p
  end.

(** ** More sample inputs *)

(** A keypress that gives only the three required fields. *)
Definition bare_keypress_input : gmap string pyval :=
  {[ "key" := VStr "a"; "code" := VStr "KeyA"; "target_element_id" := VStr "search" ]}.

Definition bare_keypress : KeypressPayload :=
  {| key := "a"; code := "KeyA"; alt_key := false; ctrl_key := false;
     shift_key := false; meta_key := false; target_element_id := "search" |}.

(** A drag over two points, the second with a pressure reading and no "y". *)
Definition drag_input : gmap string pyval :=
  {[ "positions" := VList [ VDict {[ "x" := VInt 1; "y" := VInt 2 ]};
                            VDict {[ "x" := VInt 3; "pressure" := VInt 7 ]} ];
     "button" := VStr "left";
     "duration_ms" := VInt 40 ]}.

Definition drag : MouseMovementPayload :=
  {| positions := [ {[ "x" := 1; "y" := 2 ]}; {[ "x" := 3; "pressure" := 7 ]} ];
     button := "left"; duration_ms := 40 |}.

Definition half_bad_batch_input : gmap string pyval :=
  {[ "events" := VList [ VDict untagged_click_input; VDict (delete "url" untagged_click_input) ] ]}.

Definition sample_response : BatchEventResponse :=
  {| success := true; processed_event_count := -1; message := "" |}.

Definition commit_succeeds : Session → option exn := λ _, None.

(** A database that commits into an empty table and loses the connection
    once the table holds a row. *)
Definition commit_once : Session → option exn :=
  λ s, match committed s with [] => None | _ => Some lost_connection end.

(** Rows of two earlier events, one committed and one still pending. *)
Definition busy_session : Session :=
  {| committed := [mk_Row 7%N 2%N "https://shop.example/cart" new_year "scroll" ∅];
     pending := [mk_Row 8%N 2%N "https://shop.example/pay" new_year "keypress" ∅] |}.

Definition click_row : Row :=
  mk_Row 1%N 2%N "https://shop.example/" new_year "click" (dump_ClickPayload buy_click).

Definition one_click_stored : Session := {| committed := [click_row]; pending := [] |}.

Definition two_clicks_stored : Session :=
  {| committed := [click_row; click_row]; pending := [] |}.

Definition styled_click_input : gmap string pyval :=
  {[ "element_id" := VStr "buy";
     "element_classes" := VList [VStr "btn"; VStr "primary"; VStr "btn"];
     "position" := VDict {[ "x" := VInt 10; "y" := VInt 20 ]} ]}.

Definition styled_click : ClickPayload :=
  {| element_id := "buy"; element_classes := ["btn"; "primary"; "btn"];
     position := {[ "x" := 10; "y" := 20 ]} |}.


(** ** The classes of the union, by schema *)

Definition class_name (s : Schema) : string :=
  match s with
  | Click => "ClickEvent"
  | Scroll => "ScrollEvent"
  | MouseMovement => "MouseMovementEvent"
  | Keypress => "KeypressEvent"
  | WindowResize => "WindowResizeEvent"
  end.

(** The member of [EventModel] that a schema names. *)
Definition member_of (env : Env) (s : Schema) : Member EventModel :=
  {| member_validate := λ v, at_loc (LStr (class_name s)) (validate_as env s v);
     member_score := event_score s |}.

(** The place of a schema in the [Union]. *)
Definition schema_rank (s : Schema) : nat :=
  match s with
  | Click => 0
  | Scroll => 1
  | MouseMovement => 2
  | Keypress => 3
  | WindowResize => 4
  end%nat.

(** [score_lt a b]: the match measured [b] is better than the one measured
    [a]: it sets more fields, or as many and is more exact. *)
Definition score_lt (a b : Score) : Prop := better a b = true.

(** The payload of an event, whatever its class. *)
Definition payload_of (e : EventModel) : Payload :=
  match e with
  | IsClickEvent e => OfClick (payload e)
  | IsScrollEvent e => OfScroll (payload e)
  | IsMouseMovementEvent e => OfMouseMovement (payload e)
  | IsKeypressEvent e => OfKeypress (payload e)
  | IsWindowResizeEvent e => OfWindowResize (payload e)
  end.

(** The schema of the class of an event. *)
Definition schema_of_event (e : EventModel) : Schema := schema_of (payload_of e).

(** A record with the given envelope and payload. *)
Definition event_record (sid wid : UUID) (u : string) (ts : datetime)
    (p : gmap string pyval) : gmap string pyval :=
  {[ "session_id" := VUuid sid; "website_id" := VUuid wid; "url" := VStr u;
     "timestamp" := VDatetime ts; "payload" := VDict p ]}.

(** A payload that gives the two required fields of a click and the three
    required fields of a keypress. *)
Definition keypress_on_button_input : gmap string pyval :=
  {[ "element_id" := VStr "buy";
     "position" := VDict {[ "x" := VInt 10; "y" := VInt 20 ]};
     "key" := VStr "a"; "code" := VStr "KeyA"; "target_element_id" := VStr "search" ]}.

(** A record with that payload and no [event_type]. *)
Definition untagged_keypress_on_button_input : gmap string pyval :=
  event_record 1%N 2%N "https://shop.example/" new_year keypress_on_button_input.

Definition keypress_on_button_event : KeypressEvent :=
  {| session_id := 1%N; website_id := 2%N; url := "https://shop.example/";
     timestamp := new_year; event_type := "keypress"; payload := bare_keypress |}.

(** A payload that gives the three fields of a click and the three required
    fields of a keypress. *)
Definition keypress_on_styled_button_input : gmap string pyval :=
  <["element_classes" := VList []]> keypress_on_button_input.

(** A record with that payload, tagged as a keypress. *)
Definition tagged_keypress_on_styled_button_input : gmap string pyval :=
  <["event_type" := VStr "keypress"]>
    (event_record 1%N 2%N "https://shop.example/" new_year keypress_on_styled_button_input).

(** A validator keeps the values that are exactly of the type [t]: the
    [model_dump] of what it builds from such a value is the value. *)
Definition keeps_exact {A} (t : FieldType) (item : pyval → result A) (dump : A → pyval)
    : Prop :=
  ∀ x a, exactness_of t x = Exact → item x = Ok a → dump a = x.

(** A record with the payload of [drag_input] and no [event_type]. *)
Definition untagged_drag_input : gmap string pyval :=
  event_record 1%N 2%N "https://shop.example/" new_year drag_input.

Definition drag_event : MouseMovementEvent :=
  {| session_id := 1%N; website_id := 2%N; url := "https://shop.example/";
     timestamp := new_year; event_type := "mouse_move"; payload := drag |}.

(** * Properties *)

(** ** Results *)

Lemma result_map_Ok {A B} (f : A → B) (r : result A) (b : B) :
  f <$$> r = Ok b ↔ ∃ a, r = Ok a ∧ b = f a.
Proof.
  destruct r as [a|es]; simpl; split.
  - intros [= <-]. eauto.
  - intros (a' & [= <-] & ->). done.
  - done.
  - intros (a' & [=] & _).
Qed.

Lemma result_ap_Ok {A B} (rf : result (A → B)) (ra : result A) (b : B) :
  rf <**> ra = Ok b ↔ ∃ f a, rf = Ok f ∧ ra = Ok a ∧ b = f a.
Proof.
  destruct rf as [f|es1], ra as [a|es2]; simpl; split; try done.
  - intros [= <-]. eauto.
  - intros (f' & a' & [= <-] & [= <-] & ->). done.
  - intros (f' & a' & _ & [=] & _).
  - intros (f' & a' & [=] & _).
  - intros (f' & a' & [=] & _).
Qed.

Lemma errors_map {A B} (f : A → B) (r : result A) : errors (f <$$> r) = errors r.
Proof. by destruct r. Qed.

Lemma errors_ap {A B} (rf : result (A → B)) (ra : result A) :
  errors (rf <**> ra) = errors rf ++ errors ra.
Proof. destruct rf, ra; simpl; by rewrite ?app_nil_r. Qed.

Lemma errors_at_loc {A} (i : LocItem) (r : result A) :
  errors (at_loc i r) = under i <$> errors r.
Proof. by destruct r. Qed.

Lemma at_loc_Ok {A} (i : LocItem) (r : result A) (a : A) :
  at_loc i r = Ok a ↔ r = Ok a.
Proof. destruct r; simpl; split; congruence. Qed.

(** Inverts a chain [mk <$$> r1 <**> ... <**> rn = Ok x] into [ri = Ok xi]. *)
Ltac invert_Ok H :=
  repeat match type of H with
  | _ <**> _ = Ok _ =>
      let f := fresh "f" in let a := fresh "a" in
      let Hf := fresh "Hf" in let Ha := fresh "Ha" in
      apply result_ap_Ok in H as (f & a & Hf & Ha & ->); rename Hf into H
  | _ <$$> _ = Ok _ =>
      let a := fresh "a" in let Ha := fresh "Ha" in
      apply result_map_Ok in H as (a & Ha & ->); rename Ha into H
  end.

(** ** Fields *)

Lemma str_v_Ok (v : pyval) (s : string) : str_v v = Ok s ↔ v = VStr s.
Proof. destruct v; simpl; unfold fail; split; congruence. Qed.

Lemma required_Ok {A} (d : gmap string pyval) name (v : pyval → result A) (a : A) :
  required d name v = Ok a ↔ ∃ x, d !! name = Some x ∧ v x = Ok a.
Proof.
  unfold required. destruct (d !! name) as [x|]; split.
  - rewrite at_loc_Ok. eauto.
  - intros (x' & [= <-] & H). by rewrite at_loc_Ok.
  - done.
  - intros (x' & [=] & _).
Qed.

Lemma optional_Ok {A} (d : gmap string pyval) name (v : pyval → result A) (dflt a : A) :
  optional d name v dflt = Ok a ↔
  match d !! name with
  | Some x => v x = Ok a
  | None => a = dflt
  end.
Proof.
  unfold optional. destruct (d !! name) as [x|].
  - apply at_loc_Ok.
  - split; congruence.
Qed.

Lemma model_input_Ok cls (v : pyval) (d : gmap string pyval) :
  model_input default_config cls v = Ok d ↔ v = VDict d.
Proof. destruct v; simpl; unfold fail; split; congruence. Qed.

(** The record a model with [from_attributes] reads is the dict it is given,
    or has no field at all. *)
Lemma model_input_inv cfg cls (v : pyval) (d : gmap string pyval) :
  model_input cfg cls v = Ok d → v = VDict d ∨ d = ∅.
Proof.
  destruct v; simpl; unfold fail; try congruence.
  - destruct (from_attributes cfg); [|done]. intros [= <-]. by right.
  - intros [= <-]. by left.
Qed.

Lemma required_empty {A} name (v : pyval → result A) (a : A) : required ∅ name v ≠ Ok a.
Proof. unfold required. by rewrite lookup_empty. Qed.

(** ** Event classes *)

Section EventFacts.
Context (env : Env) {P : Type} (cls tag : string) (validate_payload : pyval → result P).

(** An instance is built exactly from a dict whose six fields validate. *)
Lemma validate_Event_Ok (v : pyval) (e : Event P) :
  validate_Event env cls tag validate_payload v = Ok e ↔
  ∃ d, v = VDict d
    ∧ required d "session_id" (uuid_v env) = Ok (session_id e)
    ∧ required d "website_id" (uuid_v env) = Ok (website_id e)
    ∧ required d "url" str_v = Ok (url e)
    ∧ optional d "timestamp" (datetime_v env) (now env) = Ok (timestamp e)
    ∧ optional d "event_type" str_v tag = Ok (event_type e)
    ∧ required d "payload" validate_payload = Ok (payload e).
Proof.
  unfold validate_Event. split.
  - destruct (model_input _ _ v) as [d|] eqn:Hd; [|done].
    apply model_input_inv in Hd as [->| ->]; intros H.
    + exists d. invert_Ok H. simpl. by repeat split.
    + invert_Ok H. by apply required_empty in H.
  - intros (d & -> & H1 & H2 & H3 & H4 & H5 & H6). simpl.
    rewrite H1, H2, H3, H4, H5, H6. by destruct e.
Qed.

(** The tag of an instance is the [event_type] of the record when it has
    one, which must be a string, and the default of the class otherwise. *)
Lemma validate_Event_event_type (d : gmap string pyval) (e : Event P) :
  validate_Event env cls tag validate_payload (VDict d) = Ok e →
  match d !! "event_type" with
  | Some x => x = VStr (event_type e)
  | None => event_type e = tag
  end.
Proof.
  intros (d' & [= <-] & _ & _ & _ & _ & H & _)%validate_Event_Ok.
  apply optional_Ok in H. destruct (d !! "event_type"); [|done].
  by apply str_v_Ok.
Qed.
End EventFacts.

Ltac unfold_classes :=
  unfold validate_ClickEvent, validate_ScrollEvent, validate_MouseMovementEvent,
    validate_KeypressEvent, validate_WindowResizeEvent in *.

(** ** Tags *)

Lemma mislabelled_click_accepted env :
  validate_as env Click (VDict mislabelled_click_input)
  = Ok (IsClickEvent (click_event "scroll")).
Proof. vm_compute. reflexivity. Qed.

(** C1, as stated, fails: ClickEvent builds, from a record with a click
    payload and the tag "scroll", an instance that holds a ClickPayload and
    whose [event_type] is "scroll". *)
Lemma event_type_mismatch_constructed :
  ∃ e, validate_as strict_env Click (VDict mislabelled_click_input) = Ok e
     ∧ event_type_of e ≠ class_event_type e.
Proof.
  exists (IsClickEvent (click_event "scroll")).
  split; [apply mislabelled_click_accepted|]. simpl. discriminate.
Qed.

(** C1, amended: [event_type] is a free string in each of the five classes.
    The tag of a constructed event is the string the input record gives,
    whatever it is, and the default of the event's class when the record gives
    none; so it matches the payload class whenever the record leaves it
    out. *)
Theorem event_type_given_or_default env (s : Schema) (v : pyval) (e : EventModel) :
  validate_as env s v = Ok e →
  ∃ d, v = VDict d ∧
    match d !! "event_type" with
    | Some x => x = VStr (event_type_of e)
    | None => event_type_of e = class_event_type e
    end.
Proof.
  intros H.
  destruct s; simpl in H; apply result_map_Ok in H as (a & Ha & ->); unfold_classes;
    pose proof Ha as (d & -> & _)%validate_Event_Ok; exists d; (split; [done|]);
    apply validate_Event_event_type in Ha; exact Ha.
Qed.

Lemma event_type_given_or_default_witness :
  ∃ d, VDict mislabelled_click_input = VDict d ∧
    match d !! "event_type" with
    | Some x => x = VStr "scroll"
    | None => "scroll" = "click"
    end.
Proof.
  apply (event_type_given_or_default strict_env Click (VDict mislabelled_click_input)
           (IsClickEvent (click_event "scroll"))).
  apply mislabelled_click_accepted.
Defined.

(** ** Lists and dicts *)

Lemma is_Ok_false {A} (r : result A) : is_Ok r = false ↔ r = Err (errors r).
Proof. destruct r; simpl; split; done. Qed.

Lemma is_Ok_map {A B} (f : A → B) (r : result A) : is_Ok (f <$$> r) = is_Ok r.
Proof. by destruct r. Qed.

Lemma is_Ok_ap {A B} (rf : result (A → B)) (ra : result A) :
  is_Ok (rf <**> ra) = is_Ok rf && is_Ok ra.
Proof. by destruct rf, ra. Qed.

Lemma is_Ok_at_loc {A} (i : LocItem) (r : result A) : is_Ok (at_loc i r) = is_Ok r.
Proof. by destruct r. Qed.

Lemma sequence_Ok {A} (rs : list (result A)) (l : list A) :
  sequence rs = Ok l ↔ Forall2 (λ r a, r = Ok a) rs l.
Proof.
  revert l. induction rs as [|r rs IH]; intros l; simpl.
  - split.
    + intros [= <-]. constructor.
    + by intros ->%Forall2_nil_inv_l.
  - rewrite result_ap_Ok. split.
    + intros (f & l' & Hf & Hl & ->). apply result_map_Ok in Hf as (a & -> & ->).
      constructor; [done|]. by apply IH.
    + intros (a & l' & -> & Hl & ->)%Forall2_cons_inv_l.
      exists (cons a), l'. repeat split. by apply IH.
Qed.


Lemma is_Ok_sequence {A} (rs : list (result A)) :
  is_Ok (sequence rs) = forallb is_Ok rs.
Proof.
  induction rs as [|r rs IH]; [done|]. simpl.
  by rewrite is_Ok_ap, is_Ok_map, IH.
Qed.

Lemma imap_at_loc_Ok {A} (item : pyval → result A) (f : nat → LocItem) l (l' : list A) :
  Forall2 (λ r a, r = Ok a) (imap (λ i x, at_loc (f i) (item x)) l) l'
  ↔ Forall2 (λ x a, item x = Ok a) l l'.
Proof.
  revert f l'. induction l as [|x l IH]; intros f l'; simpl.
  - split; intros ->%Forall2_nil_inv_l; constructor.
  - split.
    + intros (a & l'' & Ha & Hl & ->)%Forall2_cons_inv_l.
      apply at_loc_Ok in Ha. constructor; [done|]. by apply (IH (f ∘ S)).
    + intros (a & l'' & Ha & Hl & ->)%Forall2_cons_inv_l.
      constructor; [by apply at_loc_Ok|]. by apply (IH (f ∘ S)).
Qed.

(** [List[T]] accepts a list exactly when it accepts each element, and keeps
    the elements in their order. *)
Lemma list_v_Ok {A} (item : pyval → result A) (v : pyval) (l' : list A) :
  list_v item v = Ok l' ↔ ∃ l, v = VList l ∧ Forall2 (λ x a, item x = Ok a) l l'.
Proof.
  destruct v; simpl; try (split; [done|by intros (? & [=] & _)]).
  rewrite sequence_Ok, (imap_at_loc_Ok item LInt). split.
  - eauto.
  - by intros (l0 & [= <-] & H).
Qed.

Lemma item_v_Ok {A} (item : pyval → result A) (kx : string * pyval) (ka : string * A) :
  item_v item kx = Ok ka ↔ ka.1 = kx.1 ∧ item kx.2 = Ok ka.2.
Proof.
  unfold item_v. rewrite result_map_Ok. setoid_rewrite at_loc_Ok.
  destruct ka as [k a]; simpl. split.
  - by intros (a' & Ha & [= -> ->]).
  - intros [-> Ha]. eauto.
Qed.

Lemma dict_items_sound {A} (item : pyval → result A) (d : gmap string pyval) l :
  Forall2 (λ r a, r = Ok a) (item_v item <$> map_to_list d) l →
  ∀ k, option_Forall2 (λ x a, item x = Ok a) (d !! k) (list_to_map (M:=gmap string A) l !! k).
Proof.
  intros Hl k. apply Forall2_fmap_l in Hl.
  assert ((map_to_list d).*1 = l.*1) as Hkeys.
  { clear k. induction Hl as [|kx ka ?? Hk%item_v_Ok]; [done|]. simpl. f_equal; [|done].
    by destruct Hk. }
  assert (NoDup l.*1) as Hnd by (rewrite <- Hkeys; apply NoDup_fst_map_to_list).
  destruct (d !! k) as [x|] eqn:Hk.
  - apply elem_of_map_to_list in Hk. apply list_elem_of_lookup in Hk as [i Hi].
    destruct (Forall2_lookup_l _ _ _ _ _ Hl Hi) as ([k' a] & Hi' & [Hk' Ha]%item_v_Ok).
    simpl in *. subst k'.
    rewrite (elem_of_list_to_map_1 l k a Hnd); [by constructor|].
    apply list_elem_of_lookup. eauto.
  - rewrite (not_elem_of_list_to_map_1 l k); [constructor|].
    rewrite <- Hkeys. intros ((k' & x) & -> & Hin%elem_of_map_to_list)%list_elem_of_fmap.
    simpl in Hk. congruence.
Qed.

(** [Dict[str, T]] accepts a dict exactly when it accepts each of its values;
    the validated dict holds the validated values under the same keys. *)
Lemma dict_v_Ok {A} (item : pyval → result A) (v : pyval) (m : gmap string A) :
  dict_v item v = Ok m ↔
  ∃ d, v = VDict d ∧ ∀ k, option_Forall2 (λ x a, item x = Ok a) (d !! k) (m !! k).
Proof.
  destruct v; simpl; try (split; [done|by intros (? & [=] & _)]).
  rewrite result_map_Ok. setoid_rewrite sequence_Ok. split.
  - intros (l & Hl & ->). exists d. split; [done|]. by apply dict_items_sound.
  - intros (d' & [= <-] & Hm).
    destruct (sequence (item_v item <$> map_to_list d)) as [l|es] eqn:Hseq.
    + apply sequence_Ok in Hseq. exists l. split; [done|].
      apply map_eq. intros k.
      pose proof (dict_items_sound item d l Hseq k) as Hl. specialize (Hm k).
      destruct Hm as [x a Ha|]; inversion Hl as [x' a' Ha'|]; [|done].
      f_equal. congruence.
    + exfalso. assert (is_Ok (sequence (item_v item <$> map_to_list d)) = true) as Hok.
      { rewrite is_Ok_sequence. apply forallb_forall. intros r Hr.
        apply list_elem_of_In, list_elem_of_fmap in Hr as ([k x] & -> & Hkx).
        apply elem_of_map_to_list in Hkx. specialize (Hm k). rewrite Hkx in Hm.
        inversion Hm as [x' a Ha|]; subst. unfold item_v. simpl.
        by rewrite Ha. }
      by rewrite Hseq in Hok.
Qed.

Lemma dict_v_dom {A} (item : pyval → result A) (d : gmap string pyval) (m : gmap string A) :
  dict_v item (VDict d) = Ok m → dom m = dom d.
Proof.
  intros (d' & [= <-] & Hm)%dict_v_Ok. apply set_eq. intros k.
  rewrite !elem_of_dom. specialize (Hm k).
  destruct Hm; split; intros [? ?]; done.
Qed.

Lemma dict_v_dump_positions env (m : gmap string Z) :
  dict_v (int_v env) (dump_positions m) = Ok m.
Proof.
  apply dict_v_Ok. exists (VInt <$> m). split; [done|]. intros k.
  rewrite lookup_fmap. destruct (m !! k); by constructor.
Qed.

(** ** Payloads *)

Ltac unfold_payloads :=
  unfold validate_ClickPayload, validate_ScrollPayload, validate_MouseMovementPayload,
    validate_KeypressPayload, validate_WindowResizePayload in *.

Lemma validate_ClickPayload_Ok env (v : pyval) (p : ClickPayload) :
  validate_ClickPayload env v = Ok p ↔
  ∃ d, v = VDict d
    ∧ required d "element_id" str_v = Ok (element_id p)
    ∧ optional d "element_classes" (list_v str_v) [] = Ok (element_classes p)
    ∧ required d "position" (dict_v (int_v env)) = Ok (position p).
Proof.
  unfold validate_ClickPayload. split.
  - destruct (model_input _ _ v) as [d|] eqn:Hd; [|done].
    apply model_input_Ok in Hd as ->. intros H. exists d.
    invert_Ok H. simpl. by repeat split.
  - intros (d & -> & H1 & H2 & H3). simpl. rewrite H1, H2, H3. by destruct p.
Qed.

(** ** The position of a click *)

Lemma click_with_z_accepted env :
  validate_ClickPayload env (VDict click_with_z_input) = Ok click_with_z.
Proof. vm_compute. reflexivity. Qed.

(** C9, as stated, fails: a click payload whose position has a third key "z"
    is accepted, and the accepted payload keeps the key. *)
Lemma position_extra_key_accepted :
  ∃ p, validate_ClickPayload strict_env (VDict click_with_z_input) = Ok p
     ∧ dom (position p) ≠ {[ "x"; "y" ]}.
Proof.
  eexists. split; [apply click_with_z_accepted|]. simpl.
  intros H. assert ("z" ∈ ({[ "x"; "y" ]} : gset string)) as Hz.
  { rewrite <- H. vm_compute. reflexivity. }
  revert Hz. vm_compute. discriminate.
Qed.

(** C9, amended: [position] is a [Dict[str, int]] with no constraint on its
    keys.  The position of an accepted click payload has exactly the keys of
    the position mapping of the input, whatever they are, each with the
    integer its value validates to. *)
Theorem position_keys_as_given env (v : pyval) (p : ClickPayload) :
  validate_ClickPayload env v = Ok p →
  ∃ d pos, v = VDict d ∧ d !! "position" = Some (VDict pos)
    ∧ dom (position p) = dom pos
    ∧ ∀ k x, pos !! k = Some x → ∃ z, int_v env x = Ok z ∧ position p !! k = Some z.
Proof.
  intros (d & -> & _ & _ & (x & Hx & Hp)%required_Ok)%validate_ClickPayload_Ok.
  pose proof Hp as (pos & -> & Hpos)%dict_v_Ok.
  exists d, pos. repeat split; [done|by eapply dict_v_dom|].
  intros k x Hk. specialize (Hpos k). rewrite Hk in Hpos.
  inversion Hpos; subst. eauto.
Qed.

Lemma position_keys_as_given_witness :
  ∃ d pos, VDict click_with_z_input = VDict d ∧ d !! "position" = Some (VDict pos)
    ∧ dom (position click_with_z) = dom pos
    ∧ ∀ k x, pos !! k = Some x →
        ∃ z, int_v strict_env x = Ok z ∧ position click_with_z !! k = Some z.
Proof.
  apply (position_keys_as_given strict_env (VDict click_with_z_input) click_with_z).
  apply click_with_z_accepted.
Defined.

(** ** Batches *)

Lemma empty_batch_accepted env :
  validate_BatchEventPayload env (VDict empty_batch_input) = Ok {| events := [] |}.
Proof. vm_compute. reflexivity. Qed.

(** C7, as stated, fails: a batch payload built from an empty list of events
    is accepted, and its sequence of events is empty. *)
Lemma empty_batch_constructed :
  ∃ b, validate_BatchEventPayload strict_env (VDict empty_batch_input) = Ok b
     ∧ events b = [].
Proof. eexists. split; [apply empty_batch_accepted|done]. Qed.

(** C7, amended: [events] is a required [List[EventModel]] with no minimum
    length.  A batch payload is accepted exactly when its record has a list
    under "events", the empty list included, and every record of the list
    resolves to an event; the batch then holds the resolved events, one for
    each input record, in the order of the input. *)
Theorem batch_events_in_order env (v : pyval) (b : BatchEventPayload) :
  validate_BatchEventPayload env v = Ok b ↔
  ∃ d l, v = VDict d ∧ d !! "events" = Some (VList l)
    ∧ Forall2 (λ x e, validate_EventModel env x = Ok e) l (events b).
Proof.
  unfold validate_BatchEventPayload. split.
  - destruct (model_input _ _ v) as [d|] eqn:Hd; [|done].
    apply model_input_inv in Hd as [->| ->].
    + intros (l' & (x & Hx & (l & -> & Hl)%list_v_Ok)%required_Ok & ->)%result_map_Ok.
      by exists d, l.
    + intros (l' & Hx & ->)%result_map_Ok. by apply required_empty in Hx.
  - intros (d & l & -> & Hd & Hl). simpl.
    assert (required d "events" (list_v (validate_EventModel env)) = Ok (events b)) as ->.
    { apply required_Ok. exists (VList l). split; [done|]. apply list_v_Ok. eauto. }
    by destruct b.
Qed.

(** ** The union *)

Lemma score_lt_spec (a b : Score) :
  score_lt a b ↔
  (a.1 < b.1 ∨ (a.1 = b.1 ∧ exactness_rank a.2 < exactness_rank b.2))%nat.
Proof.
  unfold score_lt, better.
  destruct (Nat.eqb_spec a.1 b.1) as [Heq|Hne].
  - rewrite Nat.ltb_lt. lia.
  - rewrite Nat.ltb_lt. lia.
Qed.

Lemma score_lt_irrefl (a : Score) : ¬ score_lt a a.
Proof. rewrite score_lt_spec. lia. Qed.

Lemma score_lt_trans (a b c : Score) : score_lt a b → score_lt b c → score_lt a c.
Proof. rewrite !score_lt_spec. lia. Qed.

Lemma score_le_lt_trans (a b c : Score) : ¬ score_lt b a → score_lt b c → score_lt a c.
Proof. rewrite !score_lt_spec. lia. Qed.

Lemma member_Ok {A B} cls (inj : A → B) (validate : pyval → result A) score (v : pyval) (b : B) :
  member_validate (member cls inj validate score) v = Ok b ↔ ∃ a, validate v = Ok a ∧ b = inj a.
Proof. simpl. by rewrite at_loc_Ok, result_map_Ok. Qed.

Lemma successes_cons {A} (m : Member A) ms (v : pyval) :
  successes (m :: ms) v
  = match member_validate m v with
    | Ok a => (a, member_score m v) :: successes ms v
    | Err _ => successes ms v
    end.
Proof. unfold successes. simpl. by destruct (member_validate m v). Qed.

Lemma pick_Some {A} (b : A * Score) xs : is_Some (pick (Some b) xs).
Proof.
  revert b. induction xs as [|x xs IH]; intros b; simpl; [by eexists|].
  destruct (better b.2 x.2); apply IH.
Qed.

Lemma pick_None {A} (xs : list (A * Score)) : pick None xs = None ↔ xs = [].
Proof.
  destruct xs as [|x xs]; simpl; [done|]. split; [|done].
  intros H. destruct (pick_Some x xs) as [r Hr]. congruence.
Qed.

(** A union accepts the input exactly when one of its members does. *)
Lemma is_Ok_union {A} (members : list (Member A)) (v : pyval) :
  is_Ok (union members v) = existsb (λ m, is_Ok (member_validate m v)) members.
Proof.
  unfold union.
  assert (successes members v = [] ↔ existsb (λ m, is_Ok (member_validate m v)) members = false)
    as Hnone.
  { induction members as [|m ms IH]; [done|]. rewrite successes_cons. simpl.
    destruct (member_validate m v); simpl; [split; done|exact IH]. }
  destruct (pick None (successes members v)) as [[a sc]|] eqn:Hp; simpl.
  - symmetry. apply not_false_iff_true. intros He.
    apply Hnone in He. rewrite He in Hp. done.
  - apply pick_None in Hp. symmetry. by apply Hnone.
Qed.

(** The best match is the best so far, when no member gives a better one, or
    else the match of the first of the members whose match no other member
    betters. *)
Lemma pick_successes_spec {A} (ms : list (Member A)) (v : pyval) best (r : A * Score) :
  pick best (successes ms v) = Some r →
  (best = Some r
   ∧ ∀ m, m ∈ ms → is_Ok (member_validate m v) = true → ¬ score_lt r.2 (member_score m v))
  ∨ (∃ i m, ms !! i = Some m ∧ member_validate m v = Ok r.1 ∧ member_score m v = r.2
       ∧ (∀ b, best = Some b → score_lt b.2 r.2)
       ∧ (∀ j m', (j < i)%nat → ms !! j = Some m' →
            is_Ok (member_validate m' v) = true → score_lt (member_score m' v) r.2)
       ∧ (∀ j m', (i < j)%nat → ms !! j = Some m' →
            is_Ok (member_validate m' v) = true → ¬ score_lt r.2 (member_score m' v))).
Proof.
  revert best. induction ms as [|m ms IH]; intros best.
  { simpl. intros ->. left. split; [done|]. by intros m ?%elem_of_nil. }
  rewrite successes_cons. destruct (member_validate m v) as [a|es] eqn:Hm.
  - simpl.
    intros [[Hr Hrest]|(i & m' & Hi & Hv & Hs & Hbest & Hbefore & Hafter)]%IH.
    + (* the best so far, or this match, stays the best *)
      destruct best as [b|]; simpl in Hr.
      * destruct (better b.2 (member_score m v)) eqn:Hb; injection Hr as <-.
        -- right. exists 0%nat, m. split; [done|]. split; [done|]. split; [done|].
           split; [by intros ? [= <-]|]. split; [intros; lia|].
           intros [|j] m' ? Hj ?; [lia|]. apply Hrest; [|done].
           by eapply list_elem_of_lookup_2.
        -- left. split; [done|]. intros m' [->|Hin]%elem_of_cons Hok.
           ++ unfold score_lt. by rewrite Hb.
           ++ by apply Hrest.
      * injection Hr as <-. right. exists 0%nat, m.
        split; [done|]. split; [done|]. split; [done|].
        split; [done|]. split; [intros; lia|].
        intros [|j] m' ? Hj ?; [lia|]. apply Hrest; [|done].
        by eapply list_elem_of_lookup_2.
    + (* a later match is the best *)
      right. exists (S i), m'.
      split; [done|]. split; [done|]. split; [done|]. simpl in Hbest. split; [|split].
      * intros b ->. destruct (better b.2 (member_score m v)) eqn:Hb.
        -- eapply score_lt_trans; [exact Hb|]. by apply (Hbest (a, member_score m v)).
        -- by apply Hbest.
      * intros [|j] m'' ? Hj Hok; simpl in Hj.
        -- injection Hj as <-. destruct best as [b|].
           ++ destruct (better b.2 (member_score m v)) eqn:Hb.
              ** by apply (Hbest (a, member_score m v)).
              ** eapply score_le_lt_trans; [|by apply (Hbest b)].
                 unfold score_lt. by rewrite Hb.
           ++ by apply (Hbest (a, member_score m v)).
        -- apply (Hbefore j); [lia|done..].
      * intros [|j] m'' ? Hj Hok; [lia|]. apply (Hafter j); [lia|done..].
  - intros [[-> Hrest]|(i & m' & Hi & Hv & Hs & Hbest & Hbefore & Hafter)]%IH.
    + left. split; [done|]. intros m' [->|Hin]%elem_of_cons Hok.
      * by rewrite Hm in Hok.
      * by apply Hrest.
    + right. exists (S i), m'.
      split; [done|]. split; [done|]. split; [done|]. split; [done|]. split.
      * intros [|j] m'' ? Hj Hok; simpl in Hj.
        -- injection Hj as <-. by rewrite Hm in Hok.
        -- apply (Hbefore j); [lia|done..].
      * intros [|j] m'' ? Hj Hok; [lia|]. apply (Hafter j); [lia|done..].
Qed.

(** What a union gives is what one of its members builds. *)
Lemma union_Ok_member {A} (members : list (Member A)) (v : pyval) (a : A) :
  union members v = Ok a → ∃ m, m ∈ members ∧ member_validate m v = Ok a.
Proof.
  unfold union. destruct (pick None _) as [[a' sc]|] eqn:Hp; [|done]. intros [= ->].
  apply pick_successes_spec in Hp as [[? _]|(i & m & Hi & Hv & _)]; [done|].
  exists m. split; [by eapply list_elem_of_lookup_2|done].
Qed.

(** Resolution commutes with a change of the input that changes what every
    member builds in the same way and keeps the order of the matches. *)
Lemma union_congruence {A} (members : list (Member A)) (v v' : pyval)
    (f : A → A) (g : Score → Score) :
  (∀ a b, better (g a) (g b) = better a b) →
  (∀ m, m ∈ members → member_validate m v = f <$$> member_validate m v'
                     ∧ member_score m v = g (member_score m v')) →
  union members v = f <$$> union members v'.
Proof.
  intros Hg Hms. unfold union.
  assert (failures members v = failures members v') as ->.
  { unfold failures. f_equal. apply list_fmap_ext. intros i m Hi.
    rewrite (proj1 (Hms m (list_elem_of_lookup_2 _ _ _ Hi))). apply errors_map. }
  assert (∀ best, pick (prod_map f g <$> best) (successes members v)
                  = prod_map f g <$> pick best (successes members v')) as Hpick.
  { induction members as [|m ms IH]; intros best; [done|].
    rewrite !successes_cons.
    destruct (Hms m) as [-> ->]; [by left|].
    destruct (member_validate m v') as [a|es]; simpl.
    - rewrite <- IH by (intros; apply Hms; by right). f_equal.
      destruct best as [b|]; simpl; [|done].
      rewrite Hg. by destruct (better _ _).
    - apply IH. intros; apply Hms; by right. }
  specialize (Hpick None). simpl in Hpick. rewrite Hpick.
  by destruct (pick None (successes members v')) as [[a sc]|].
Qed.

(** An instance the union gives was accepted by the class it belongs to. *)
Lemma union_ext {A} (members : list (Member A)) (v v' : pyval) :
  (∀ m, m ∈ members → member_validate m v = member_validate m v'
                     ∧ member_score m v = member_score m v') →
  union members v = union members v'.
Proof.
  intros Hms.
  rewrite (union_congruence members v v' id id); [by destruct (union members v')|done|].
  intros m Hm. destruct (Hms m Hm) as [-> ->]. by destruct (member_validate m v').
Qed.

Lemma validate_EventModel_class env (v : pyval) (e : EventModel) :
  validate_EventModel env v = Ok e →
  match e with
  | IsClickEvent a => validate_ClickEvent env v = Ok a
  | IsScrollEvent a => validate_ScrollEvent env v = Ok a
  | IsMouseMovementEvent a => validate_MouseMovementEvent env v = Ok a
  | IsKeypressEvent a => validate_KeypressEvent env v = Ok a
  | IsWindowResizeEvent a => validate_WindowResizeEvent env v = Ok a
  end.
Proof.
  unfold validate_EventModel, EventModel_members.
  intros (m & Hm & H)%union_Ok_member.
  rewrite !elem_of_cons, elem_of_nil in Hm.
  repeat destruct Hm as [->|Hm]; try done;
    apply member_Ok in H as (a & Ha & ->); done.
Qed.

Lemma is_Ok_validate_EventModel env (v : pyval) :
  is_Ok (validate_EventModel env v)
  = existsb (λ s, is_Ok (validate_as env s v)) [Click; Scroll; MouseMovement; Keypress; WindowResize].
Proof.
  unfold validate_EventModel, EventModel_members. rewrite is_Ok_union. simpl.
  by rewrite !is_Ok_at_loc.
Qed.

(** ** Explicit tags *)

Ltac map_lookup :=
  repeat first
    [ rewrite lookup_delete_eq | rewrite lookup_delete_ne by done
    | rewrite lookup_insert_eq | rewrite lookup_insert_ne by done
    | rewrite lookup_singleton_eq | rewrite lookup_singleton_ne by done ].

Lemma required_insert_ne {A} (d : gmap string pyval) k x name (v : pyval → result A) :
  k ≠ name → required (<[k:=x]> d) name v = required d name v.
Proof. intros. unfold required. by rewrite lookup_insert_ne. Qed.

Lemma optional_insert_ne {A} (d : gmap string pyval) k x name (v : pyval → result A) dflt :
  k ≠ name → optional (<[k:=x]> d) name v dflt = optional d name v dflt.
Proof. intros. unfold optional. by rewrite lookup_insert_ne. Qed.

Lemma required_delete_ne {A} (d : gmap string pyval) k name (v : pyval → result A) :
  k ≠ name → required (delete k d) name v = required d name v.
Proof. intros. unfold required. by rewrite lookup_delete_ne. Qed.

Lemma optional_delete_ne {A} (d : gmap string pyval) k name (v : pyval → result A) dflt :
  k ≠ name → optional (delete k d) name v dflt = optional d name v dflt.
Proof. intros. unfold optional. by rewrite lookup_delete_ne. Qed.

(** A class validates a record that gives a string as [event_type] exactly as
    it validates the record without it, up to the tag of the instance. *)
Lemma validate_Event_insert_event_type env {P} cls dflt
    (validate_payload : pyval → result P) (d : gmap string pyval) (tag : string) :
  validate_Event env cls dflt validate_payload (VDict (<["event_type" := VStr tag]> d))
  = (λ e, assign e (Set_event_type tag))
      <$$> validate_Event env cls dflt validate_payload (VDict (delete "event_type" d)).
Proof.
  unfold validate_Event. simpl.
  rewrite !required_insert_ne, !required_delete_ne, !optional_insert_ne,
    !optional_delete_ne by done.
  unfold optional at 2 4. rewrite lookup_insert_eq, lookup_delete_eq. simpl.
  destruct (required d "session_id" _), (required d "website_id" _),
    (required d "url" _), (optional d "timestamp" _ _), (required d "payload" _); done.
Qed.

Ltac unfold_scores :=
  unfold event_score, fields_set, fields_exactness, envelope_types;
  cbn [fmap list_fmap sum_list sum_list_with foldr meets fst snd].

(** An explicit [event_type] that is a string is one more field set, and an
    exact one, for every class. *)
Lemma event_score_insert_event_type s (d : gmap string pyval) (tag : string) :
  event_score s (VDict (<["event_type" := VStr tag]> d))
  = prod_map S id (event_score s (VDict (delete "event_type" d))).
Proof.
  unfold_scores. map_lookup. unfold prod_map, id. simpl. f_equal. lia.
Qed.

Lemma foreign_tag_accepted env :
  validate_EventModel env (VDict (<["event_type" := VStr "hover"]> untagged_click_input))
  = Ok (IsClickEvent (click_event "hover")).
Proof. vm_compute. reflexivity. Qed.

(** C5, as stated, fails: a click record whose [event_type] is "hover", which
    is none of the five tags, resolves to a ClickEvent. *)
Lemma unknown_event_type_resolves :
  ∃ tag e, (tag ∉ known_event_types)
    ∧ (<["event_type" := VStr tag]> untagged_click_input) !! "event_type" = Some (VStr tag)
    ∧ validate_EventModel strict_env
        (VDict (<["event_type" := VStr tag]> untagged_click_input)) = Ok e.
Proof.
  exists "hover", (IsClickEvent (click_event "hover")).
  split; [|split; [done|apply foreign_tag_accepted]].
  unfold known_event_types. rewrite !elem_of_cons, elem_of_nil.
  intros [H|[H|[H|[H|[H|[]]]]]]; discriminate.
Qed.

(** C5, amended: an explicit [event_type] is never compared with the five
    tags.  A record that gives any string as [event_type] resolves exactly as
    the same record without [event_type] does: to the same class with the same
    envelope and payload, the given string kept as the tag, or to the same
    failure.  Resolution fails only when no class validates the record. *)
Theorem explicit_event_type_kept env (d : gmap string pyval) (tag : string) :
  validate_EventModel env (VDict (<["event_type" := VStr tag]> d))
  = with_event_type tag <$$> validate_EventModel env (VDict (delete "event_type" d)).
Proof.
  unfold validate_EventModel.
  apply (union_congruence _ _ _ (with_event_type tag) (prod_map S id)).
  { intros [a x] [b y]. done. }
  intros m Hm. unfold EventModel_members in Hm.
  rewrite !elem_of_cons, elem_of_nil in Hm.
  repeat destruct Hm as [->|Hm]; try done;
    (split; [|apply event_score_insert_event_type]);
    simpl; unfold_classes; rewrite validate_Event_insert_event_type;
    by destruct (validate_Event env _ _ _ _).
Qed.

(** ** Order of resolution *)

Lemma EventModel_members_by_schema env :
  EventModel_members env = member_of env <$> precedence.
Proof. reflexivity. Qed.

Lemma precedence_lookup (i : nat) (s : Schema) :
  precedence !! i = Some s ↔ i = schema_rank s.
Proof.
  split.
  - do 5 (destruct i as [|i]; [by intros [= <-]|]). done.
  - intros ->. by destruct s.
Qed.

(** What a union gives is the match of the first of the members whose match
    no other member betters. *)
Lemma union_Ok {A} (members : list (Member A)) (v : pyval) (a : A) :
  union members v = Ok a ↔
  ∃ i m, members !! i = Some m ∧ member_validate m v = Ok a
    ∧ (∀ j m', members !! j = Some m' → is_Ok (member_validate m' v) = true →
         ¬ score_lt (member_score m v) (member_score m' v))
    ∧ (∀ j m', (j < i)%nat → members !! j = Some m' →
         is_Ok (member_validate m' v) = true →
         score_lt (member_score m' v) (member_score m v)).
Proof.
  assert (∀ a, union members v = Ok a →
    ∃ i m, members !! i = Some m ∧ member_validate m v = Ok a
      ∧ (∀ j m', members !! j = Some m' → is_Ok (member_validate m' v) = true →
           ¬ score_lt (member_score m v) (member_score m' v))
      ∧ (∀ j m', (j < i)%nat → members !! j = Some m' →
           is_Ok (member_validate m' v) = true →
           score_lt (member_score m' v) (member_score m v))) as Hfwd.
  { clear a. intros a. unfold union.
    destruct (pick None _) as [[a' sc]|] eqn:Hp; [|done]. intros [= ->].
    apply pick_successes_spec in Hp
      as [[? _]|(i & m & Hi & Hv & Hs & _ & Hbefore & Hafter)]; [done|].
    simpl in *. subst sc. exists i, m. split; [done|]. split; [done|]. split; [|done].
    intros j m' Hj Hok. destruct (lt_eq_lt_dec j i) as [[Hlt| ->]|Hgt].
    - intros Hlt'. eapply score_lt_irrefl, score_lt_trans; [exact Hlt'|].
      by apply (Hbefore j).
    - rewrite Hi in Hj. injection Hj as <-. apply score_lt_irrefl.
    - by apply (Hafter j). }
  split; [apply Hfwd|].
  intros (i & m & Hi & Hv & Hbest & Hfirst).
  destruct (union members v) as [a'|es] eqn:Hu.
  - f_equal. destruct (Hfwd a' eq_refl) as (i' & m' & Hi' & Hv' & Hbest' & Hfirst').
    destruct (lt_eq_lt_dec i i') as [[Hlt|Heq]|Hgt].
    + exfalso. apply (Hbest i' m' Hi'); [by rewrite Hv'|].
      apply (Hfirst' i m Hlt Hi). by rewrite Hv.
    + subst i'. rewrite Hi in Hi'. injection Hi' as <-. congruence.
    + exfalso. apply (Hbest' i m Hi); [by rewrite Hv|].
      apply (Hfirst i' m' Hgt Hi'). by rewrite Hv'.
  - assert (is_Ok (union members v) = true) as Hok; [|by rewrite Hu in Hok].
    rewrite is_Ok_union. apply existsb_exists. exists m.
    split; [|by rewrite Hv]. apply list_elem_of_In. by eapply list_elem_of_lookup_2.
Qed.

Lemma untagged_keypress_on_button_resolves env :
  validate_EventModel env (VDict untagged_keypress_on_button_input)
  = Ok (IsKeypressEvent keypress_on_button_event).
Proof. vm_compute. reflexivity. Qed.

(** C6, as stated, fails: a record with no [event_type] whose payload gives
    the two required fields of a click and the three required fields of a
    keypress validates against ClickEvent, the first class in the order, and
    against KeypressEvent; it resolves to the KeypressEvent, which sets more
    of its fields. *)
Lemma resolution_is_not_first_match :
  untagged_keypress_on_button_input !! "event_type" = None
  ∧ structural_match strict_env (VDict untagged_keypress_on_button_input)
    = Some (IsClickEvent (click_event "click"))
  ∧ validate_EventModel strict_env (VDict untagged_keypress_on_button_input)
    = Ok (IsKeypressEvent keypress_on_button_event).
Proof.
  split; [by vm_compute|]. split; [by vm_compute|].
  apply untagged_keypress_on_button_resolves.
Qed.

(** C6, amended: a record, with or without [event_type], is validated
    against all five classes, and resolves to the event of the class that
    matches it best: a class that validates it and whose match no other
    validating class betters, the earliest such class in the order Click,
    Scroll, MouseMovement, Keypress, WindowResize.  One match is better than
    another when the record sets more of the fields of the class and of its
    payload, or as many and the values are closer to the declared types.  The
    order of the classes only decides between equal matches. *)
Theorem resolution_picks_best_match env (v : pyval) (e : EventModel) :
  validate_EventModel env v = Ok e ↔
  ∃ s, validate_as env s v = Ok e
    ∧ (∀ s', is_Ok (validate_as env s' v) = true →
         ¬ score_lt (event_score s v) (event_score s' v))
    ∧ (∀ s', (schema_rank s' < schema_rank s)%nat →
         is_Ok (validate_as env s' v) = true →
         score_lt (event_score s' v) (event_score s v)).
Proof.
  unfold validate_EventModel. rewrite union_Ok, EventModel_members_by_schema. split.
  - intros (i & m & Hi & Hv & Hbest & Hfirst).
    apply list_lookup_fmap_Some in Hi as (s & -> & Hs).
    apply (proj1 (precedence_lookup _ _)) in Hs. subst i.
    exists s. simpl in Hv. apply at_loc_Ok in Hv. split; [done|]. split.
    + intros s' Hok. apply (Hbest (schema_rank s') (member_of env s')).
      * by destruct s'.
      * simpl. by rewrite is_Ok_at_loc.
    + intros s' Hlt Hok. apply (Hfirst (schema_rank s') (member_of env s')); [done|..].
      * by destruct s'.
      * simpl. by rewrite is_Ok_at_loc.
  - intros (s & Hv & Hbest & Hfirst).
    exists (schema_rank s), (member_of env s). split; [|split; [|split]].
    + by destruct s.
    + simpl. by apply at_loc_Ok.
    + intros j m' (s' & -> & Hs')%list_lookup_fmap_Some Hok. simpl in Hok.
      rewrite is_Ok_at_loc in Hok. by apply Hbest.
    + intros j m' Hlt (s' & -> & Hs')%list_lookup_fmap_Some Hok. simpl in Hok.
      rewrite is_Ok_at_loc in Hok. apply (proj1 (precedence_lookup _ _)) in Hs'. subst j.
      by apply Hfirst.
Qed.

(** The untagged record with the keys of a click and of a keypress resolves
    to the KeypressEvent: it sets eight of its fields, and seven of the
    ClickEvent. *)
Lemma resolution_picks_best_match_witness :
  validate_EventModel strict_env (VDict untagged_keypress_on_button_input)
  = Ok (IsKeypressEvent keypress_on_button_event).
Proof.
  apply (resolution_picks_best_match strict_env). exists Keypress.
  split; [by vm_compute|]. split.
  - intros s' _. rewrite score_lt_spec. destruct s'; vm_compute; lia.
  - intros s' Hlt Hok. rewrite score_lt_spec.
    destruct s'; try (vm_compute in Hok; discriminate Hok); try (simpl in Hlt; lia).
    vm_compute. lia.
Defined.

(** ** What a class builds from its own [model_dump] *)

Lemma list_v_dump {A} (item : pyval → result A) (dump : A → pyval) (l : list A) :
  (∀ a, item (dump a) = Ok a) → list_v item (VList (dump <$> l)) = Ok l.
Proof.
  intros Hitem. apply list_v_Ok. eexists. split; [done|].
  induction l; constructor; auto.
Qed.

Lemma validate_ClickPayload_dump env (p : ClickPayload) :
  validate_ClickPayload env (VDict (dump_ClickPayload p)) = Ok p.
Proof.
  unfold validate_ClickPayload, dump_ClickPayload, required, optional. simpl.
  map_lookup. rewrite (list_v_dump str_v VStr), dict_v_dump_positions by done.
  by destruct p.
Qed.

Lemma validate_ScrollPayload_dump env (p : ScrollPayload) :
  validate_ScrollPayload env (VDict (dump_ScrollPayload p)) = Ok p.
Proof.
  unfold validate_ScrollPayload, dump_ScrollPayload, required. simpl.
  map_lookup. by destruct p.
Qed.

Lemma validate_MouseMovementPayload_dump env (p : MouseMovementPayload) :
  validate_MouseMovementPayload env (VDict (dump_MouseMovementPayload p)) = Ok p.
Proof.
  unfold validate_MouseMovementPayload, dump_MouseMovementPayload, required. simpl.
  map_lookup.
  rewrite (list_v_dump (dict_v (int_v env)) dump_positions)
    by apply dict_v_dump_positions.
  by destruct p.
Qed.

Lemma validate_KeypressPayload_dump env (p : KeypressPayload) :
  validate_KeypressPayload env (VDict (dump_KeypressPayload p)) = Ok p.
Proof.
  unfold validate_KeypressPayload, dump_KeypressPayload, required, optional. simpl.
  map_lookup. by destruct p.
Qed.

Lemma validate_WindowResizePayload_dump env (p : WindowResizePayload) :
  validate_WindowResizePayload env (VDict (dump_WindowResizePayload p)) = Ok p.
Proof.
  unfold validate_WindowResizePayload, dump_WindowResizePayload, required. simpl.
  map_lookup. by destruct p.
Qed.

Section EventRoundTrip.
Context (env : Env) {P : Type} (cls tag : string).
Context (validate_payload : pyval → result P) (dump : P → gmap string pyval).

Lemma validate_Event_dump (e : Event P) :
  validate_payload (VDict (dump (payload e))) = Ok (payload e) →
  validate_Event env cls tag validate_payload (VDict (dump_Event dump e)) = Ok e.
Proof.
  intros Hp. unfold validate_Event, dump_Event, required, optional. simpl.
  map_lookup. simpl. rewrite Hp. by destruct e.
Qed.

(** A record that gives no [event_type] builds an event with the default
    tag of the class. *)
Lemma validate_Event_record (sid wid : UUID) (u : string) (ts : datetime) (p : P) :
  validate_payload (VDict (dump p)) = Ok p →
  validate_Event env cls tag validate_payload (VDict (event_record sid wid u ts (dump p)))
  = Ok (mk_Event sid wid u ts tag p).
Proof.
  intros Hp. unfold validate_Event, event_record, required, optional. simpl.
  map_lookup. simpl. by rewrite Hp.
Qed.

(** A class does not validate a record whose payload its payload model
    refuses. *)
Lemma validate_Event_payload_refused (d : gmap string pyval) (x : pyval) :
  d !! "payload" = Some x →
  is_Ok (validate_payload x) = false →
  is_Ok (validate_Event env cls tag validate_payload (VDict d)) = false.
Proof.
  intros Hd Hx. unfold validate_Event. simpl.
  rewrite !is_Ok_ap. unfold required at 4. rewrite Hd, is_Ok_at_loc, Hx.
  apply andb_false_r.
Qed.
End EventRoundTrip.

Ltac payload_refused :=
  match goal with
  | |- is_Ok (validate_Event _ _ _ _ (VDict ?d)) = false =>
      eapply validate_Event_payload_refused;
        [ unfold dump_Event; map_lookup; reflexivity
        | match goal with |- is_Ok (_ _ (VDict (_ ?p))) = false =>
            destruct p; vm_compute; reflexivity end ]
  end.

(** ** The default tags *)

(** C10: an event class built from a record that gives no [event_type] takes
    the default of the class: "click" for ClickEvent, "scroll" for
    ScrollEvent, "mouse_move" for MouseMovementEvent, "keypress" for
    KeypressEvent and "window_resize" for WindowResizeEvent.  Each class
    builds an event, with this tag, from the record that gives an envelope and
    a payload of the class and no [event_type]; and whatever event a class
    builds from a record with no [event_type] has this tag. *)
Theorem event_type_default env :
  (∀ sid wid u ts,
     (∀ p, validate_ClickEvent env (VDict (event_record sid wid u ts (dump_ClickPayload p)))
           = Ok (mk_Event sid wid u ts "click" p))
     ∧ (∀ p, validate_ScrollEvent env
               (VDict (event_record sid wid u ts (dump_ScrollPayload p)))
             = Ok (mk_Event sid wid u ts "scroll" p))
     ∧ (∀ p, validate_MouseMovementEvent env
               (VDict (event_record sid wid u ts (dump_MouseMovementPayload p)))
             = Ok (mk_Event sid wid u ts "mouse_move" p))
     ∧ (∀ p, validate_KeypressEvent env
               (VDict (event_record sid wid u ts (dump_KeypressPayload p)))
             = Ok (mk_Event sid wid u ts "keypress" p))
     ∧ (∀ p, validate_WindowResizeEvent env
               (VDict (event_record sid wid u ts (dump_WindowResizePayload p)))
             = Ok (mk_Event sid wid u ts "window_resize" p)))
  ∧ ∀ d, d !! "event_type" = None →
      (∀ e, validate_ClickEvent env (VDict d) = Ok e → event_type e = "click")
      ∧ (∀ e, validate_ScrollEvent env (VDict d) = Ok e → event_type e = "scroll")
      ∧ (∀ e, validate_MouseMovementEvent env (VDict d) = Ok e →
              event_type e = "mouse_move")
      ∧ (∀ e, validate_KeypressEvent env (VDict d) = Ok e → event_type e = "keypress")
      ∧ (∀ e, validate_WindowResizeEvent env (VDict d) = Ok e →
              event_type e = "window_resize").
Proof.
  split.
  - intros sid wid u ts. unfold_classes.
    repeat split; intros p; apply validate_Event_record;
      first [ apply validate_ClickPayload_dump | apply validate_ScrollPayload_dump
            | apply validate_MouseMovementPayload_dump | apply validate_KeypressPayload_dump
            | apply validate_WindowResizePayload_dump ].
  - intros d Hd. unfold_classes. repeat split; intros e He;
      apply validate_Event_event_type in He; by rewrite Hd in He.
Qed.

(** A drag recorded with no [event_type] is built by MouseMovementEvent,
    tagged "mouse_move". *)
Lemma event_type_default_witness :
  validate_MouseMovementEvent strict_env
    (VDict (event_record 1%N 2%N "https://shop.example/" new_year
              (dump_MouseMovementPayload drag)))
  = Ok drag_event
  ∧ ∃ e, validate_MouseMovementEvent strict_env (VDict untagged_drag_input) = Ok e
         ∧ event_type e = "mouse_move".
Proof.
  destruct (event_type_default strict_env) as [Hbuilt Htag]. split.
  - apply (Hbuilt 1%N 2%N "https://shop.example/" new_year).
  - exists drag_event. split; [by vm_compute|].
    apply (Htag untagged_drag_input); by vm_compute.
Defined.

(** ** Round trip *)

(** A record that a single class validates resolves to the event of that
    class. *)
Lemma validate_EventModel_unique env (s : Schema) (v : pyval) (e : EventModel) :
  validate_as env s v = Ok e →
  (∀ s', is_Ok (validate_as env s' v) = true → s' = s) →
  validate_EventModel env v = Ok e.
Proof.
  intros Hv Hsame. unfold validate_EventModel.
  rewrite union_Ok, EventModel_members_by_schema.
  exists (schema_rank s), (member_of env s). split; [by destruct s|].
  split; [simpl; by apply at_loc_Ok|]. split.
  - intros j m' (s' & -> & Hs')%list_lookup_fmap_Some Hok. simpl in Hok.
    rewrite is_Ok_at_loc in Hok. rewrite (Hsame s' Hok). apply score_lt_irrefl.
  - intros j m' Hlt (s' & -> & Hs')%list_lookup_fmap_Some Hok. simpl in Hok.
    rewrite is_Ok_at_loc in Hok. apply Hsame in Hok as ->.
    apply (proj1 (precedence_lookup _ _)) in Hs'. lia.
Qed.

Lemma meet_Exact (x y : Exactness) : meet x y = Exact ↔ x = Exact ∧ y = Exact.
Proof. destruct x, y; vm_compute; intuition congruence. Qed.

Lemma meets_Exact (xs : list Exactness) : meets xs = Exact ↔ Forall (λ x, x = Exact) xs.
Proof.
  induction xs as [|x xs IH]; simpl.
  - split; [constructor|done].
  - by rewrite meet_Exact, Forall_cons, IH.
Qed.

Lemma keeps_exact_str : keeps_exact TStr str_v VStr.
Proof. intros [] a; simpl; congruence. Qed.

Lemma keeps_exact_int env : keeps_exact TInt (int_v env) VInt.
Proof. intros [] a; simpl; congruence. Qed.

Lemma keeps_exact_float env : keeps_exact TFloat (float_v env) VFloat.
Proof. intros [] a; simpl; congruence. Qed.

Lemma keeps_exact_bool env : keeps_exact TBool (bool_v env) VBool.
Proof. intros [] a; simpl; congruence. Qed.

Lemma keeps_exact_list {A} t (item : pyval → result A) (dump : A → pyval) :
  keeps_exact t item dump →
  keeps_exact (TList t) (list_v item) (λ l, VList (dump <$> l)).
Proof.
  intros Hitem x l' Hx (l & -> & Hl)%list_v_Ok. simpl in Hx.
  apply meets_Exact, Forall_fmap in Hx. f_equal.
  induction Hl as [|y a l l' Hy _ IH]; [done|].
  apply Forall_cons in Hx as [Hy' Hx]. simpl. f_equal; [by apply Hitem|by apply IH].
Qed.

Lemma keeps_exact_dict {A} t (item : pyval → result A) (dump : A → pyval) :
  keeps_exact t item dump →
  keeps_exact (TDict t) (dict_v item) (λ m, VDict (dump <$> m)).
Proof.
  intros Hitem x m Hx (d & -> & Hm)%dict_v_Ok. simpl in Hx.
  apply meets_Exact, Forall_fmap in Hx. rewrite Forall_forall in Hx. f_equal.
  apply map_eq. intros k. rewrite lookup_fmap. specialize (Hm k).
  destruct (d !! k) as [y|] eqn:Hk; inversion Hm as [y' a Ha|]; subst; simpl; [|done].
  f_equal. apply Hitem; [|done]. by apply (Hx (k, y)), elem_of_map_to_list.
Qed.

Lemma keeps_exact_positions env : keeps_exact (TDict TInt) (dict_v (int_v env)) dump_positions.
Proof. apply (keeps_exact_dict TInt (int_v env) VInt), keeps_exact_int. Qed.

(** A field that the record gives with a value exactly of its type has that
    value in the payload built. *)
Lemma required_exact {A} t (item : pyval → result A) (dump : A → pyval)
    (d : gmap string pyval) k (x : pyval) (a : A) :
  keeps_exact t item dump →
  required d k item = Ok a → d !! k = Some x → exactness_of t x = Exact → dump a = x.
Proof.
  intros Hitem (x' & Hx' & Ha)%required_Ok Hx Ht.
  rewrite Hx in Hx'. injection Hx' as <-. by apply Hitem.
Qed.

Lemma optional_exact {A} t (item : pyval → result A) (dump : A → pyval)
    (d : gmap string pyval) k (x : pyval) (a dflt : A) :
  keeps_exact t item dump →
  optional d k item dflt = Ok a → d !! k = Some x → exactness_of t x = Exact → dump a = x.
Proof.
  intros Hitem Ha%optional_Ok Hx Ht. rewrite Hx in Ha. by apply Hitem.
Qed.

Lemma payload_values_kept env (s : Schema) (d : gmap string pyval) (p : Payload)
    (k : string) (t : FieldType) (x : pyval) :
  validate_Payload env s (VDict d) = Ok p →
  (k, t) ∈ payload_types s → d !! k = Some x → exactness_of t x = Exact →
  dump_Payload p !! k = Some x.
Proof.
  intros Hp Hk Hx Ht.
  destruct s; simpl in Hp; apply result_map_Ok in Hp as (a & Ha & ->);
    unfold_payloads; simpl in Ha; invert_Ok Ha;
    simpl in Hk; rewrite !elem_of_cons, elem_of_nil in Hk;
    repeat destruct Hk as [[= -> ->]|Hk]; try done;
    simpl; repeat (unfold dump_ClickPayload, dump_ScrollPayload, dump_MouseMovementPayload,
      dump_KeypressPayload, dump_WindowResizePayload); simpl; map_lookup; f_equal;
    first
      [ solve [eapply (required_exact TStr str_v VStr); eauto using keeps_exact_str]
      | solve [eapply (required_exact TInt (int_v env) VInt); eauto using keeps_exact_int]
      | solve [eapply (required_exact TFloat (float_v env) VFloat);
                 eauto using keeps_exact_float]
      | solve [eapply (optional_exact TBool (bool_v env) VBool);
                 eauto using keeps_exact_bool]
      | solve [eapply (optional_exact (TList TStr) (list_v str_v) (λ l, VList (VStr <$> l)));
                 eauto using keeps_exact_list, keeps_exact_str]
      | solve [eapply (required_exact (TDict TInt) (dict_v (int_v env)) dump_positions);
                 eauto using keeps_exact_positions]
      | solve [eapply (required_exact (TList (TDict TInt)) (list_v (dict_v (int_v env)))
                         (λ l, VList (dump_positions <$> l)));
                 eauto using keeps_exact_list, keeps_exact_positions] ].
Qed.

Lemma tagged_keypress_on_styled_button_resolves env :
  validate_EventModel env (VDict tagged_keypress_on_styled_button_input)
  = Ok (IsClickEvent (click_event "keypress")).
Proof. vm_compute. reflexivity. Qed.

(** C3, as stated, fails: a record tagged "keypress" whose payload gives the
    three required fields of a keypress, and the three fields of a click as
    well, is a valid KeypressEvent record; it resolves to a ClickEvent, which
    carries the tag "keypress" and none of the keypress fields. *)
Lemma valid_keypress_resolves_to_click :
  validate_as strict_env Keypress (VDict tagged_keypress_on_styled_button_input)
    = Ok (IsKeypressEvent keypress_on_button_event)
  ∧ tagged_keypress_on_styled_button_input !! "event_type" = Some (VStr "keypress")
  ∧ validate_EventModel strict_env (VDict tagged_keypress_on_styled_button_input)
    = Ok (IsClickEvent (click_event "keypress"))
  ∧ event_type_of (IsClickEvent (click_event "keypress"))
    ≠ class_event_type (IsClickEvent (click_event "keypress"))
  ∧ keypress_on_styled_button_input !! "key" = Some (VStr "a")
  ∧ dump_Payload (payload_of (IsClickEvent (click_event "keypress"))) !! "key" = None.
Proof.
  split; [by vm_compute|]. split; [by vm_compute|].
  split; [apply tagged_keypress_on_styled_button_resolves|].
  split; [discriminate|]. split; by vm_compute.
Qed.

(** C3, amended: every record that at least one of the five event classes
    validates resolves to an event, and the class of this event validates the
    record.  The tag of the event is the [event_type] of the record, or the
    default of the class of the event when the record gives none: it need not
    be the tag of that class.  The payload of the event is what the payload
    class of the event builds from the payload of the record: every field of
    that class that the record gives with a value exactly of its declared
    type has that value in the event; the fields of other classes are not
    kept.  When a single class validates the record, the event is the one
    this class builds. *)
Theorem resolution_round_trip env (d : gmap string pyval) (s0 : Schema) (e0 : EventModel) :
  validate_as env s0 (VDict d) = Ok e0 →
  ∃ e pd,
    validate_EventModel env (VDict d) = Ok e
    ∧ validate_as env (schema_of_event e) (VDict d) = Ok e
    ∧ match d !! "event_type" with
      | Some x => x = VStr (event_type_of e)
      | None => event_type_of e = class_event_type e
      end
    ∧ d !! "payload" = Some (VDict pd)
    ∧ validate_Payload env (schema_of_event e) (VDict pd) = Ok (payload_of e)
    ∧ (∀ k t x, (k, t) ∈ payload_types (schema_of_event e) → pd !! k = Some x →
         exactness_of t x = Exact → dump_Payload (payload_of e) !! k = Some x)
    ∧ ((∀ s, is_Ok (validate_as env s (VDict d)) = true → s = s0) → e = e0).
Proof.
  intros H0.
  assert (is_Ok (validate_EventModel env (VDict d)) = true) as Hok.
  { rewrite is_Ok_validate_EventModel. apply existsb_exists. exists s0.
    split; [|by rewrite H0]. destruct s0; simpl; auto 10. }
  destruct (validate_EventModel env (VDict d)) as [e|] eqn:He; [clear Hok|done].
  pose proof (validate_EventModel_class _ _ _ He) as Hclass.
  assert (validate_as env (schema_of_event e) (VDict d) = Ok e) as Has.
  { destruct e; simpl in *; by rewrite Hclass. }
  assert (∃ pd, d !! "payload" = Some (VDict pd)
            ∧ validate_Payload env (schema_of_event e) (VDict pd) = Ok (payload_of e))
    as (pd & Hpd & Hp).
  { destruct e as [a|a|a|a|a]; simpl in Hclass; unfold_classes;
      apply validate_Event_Ok
        in Hclass as (d' & [= <-] & _ & _ & _ & _ & _ & (x & Hx & Hp)%required_Ok);
      (assert (∃ pd, x = VDict pd) as [pd ->]
         by (unfold_payloads; destruct x; try discriminate Hp; eauto));
      exists pd; simpl; by rewrite Hp. }
  exists e, pd. split; [done|]. split; [done|]. split; [|split; [done|split; [done|split]]].
  - destruct e as [a|a|a|a|a]; simpl in Hclass; unfold_classes;
      apply validate_Event_event_type in Hclass; exact Hclass.
  - intros k t x. by apply (payload_values_kept env).
  - intros Hsingle. specialize (Hsingle (schema_of_event e)).
    rewrite Has in Hsingle. specialize (Hsingle eq_refl). subst s0. congruence.
Qed.

(** The click record with no [event_type] and no [element_classes] resolves
    to a click event with the element and the position of the record. *)
Lemma resolution_round_trip_witness :
  ∃ e pd,
    validate_EventModel strict_env (VDict untagged_click_input) = Ok e
    ∧ validate_as strict_env (schema_of_event e) (VDict untagged_click_input) = Ok e
    ∧ match untagged_click_input !! "event_type" with
      | Some x => x = VStr (event_type_of e)
      | None => event_type_of e = class_event_type e
      end
    ∧ untagged_click_input !! "payload" = Some (VDict pd)
    ∧ validate_Payload strict_env (schema_of_event e) (VDict pd) = Ok (payload_of e)
    ∧ (∀ k t x, (k, t) ∈ payload_types (schema_of_event e) → pd !! k = Some x →
         exactness_of t x = Exact → dump_Payload (payload_of e) !! k = Some x)
    ∧ ((∀ s, is_Ok (validate_as strict_env s (VDict untagged_click_input)) = true →
             s = Click) →
       e = IsClickEvent (click_event "click")).
Proof.
  apply (resolution_round_trip strict_env untagged_click_input Click
           (IsClickEvent (click_event "click"))).
  by vm_compute.
Defined.

(** ** Errors of a payload *)








(** An element a list type refuses makes the list fail, and its errors are
    reported under its index. *)
Lemma list_v_element {A} (item : pyval → result A) (l : list pyval) (i : nat) (x : pyval) :
  l !! i = Some x → is_Ok (item x) = false →
  is_Ok (list_v item (VList l)) = false
  ∧ ∀ e, e ∈ errors (item x) → under (LInt i) e ∈ errors (list_v item (VList l)).
Proof.
  simpl. generalize LInt. revert i.
  induction l as [|y l IH]; intros i f Hi Hx; [done|].
  simpl. rewrite is_Ok_ap, is_Ok_map, is_Ok_at_loc, errors_ap, errors_map, errors_at_loc.
  destruct i as [|i]; simpl in Hi.
  - injection Hi as ->. rewrite Hx. split; [done|].
    intros e He. apply elem_of_app. left. by apply list_elem_of_fmap_2.
  - destruct (IH i (f ∘ S) Hi Hx) as [Hok Herr]. split.
    + apply andb_false_intro2. exact Hok.
    + intros e He. apply elem_of_app. right. by apply Herr.
Qed.



Lemma faulty_click_errors :
  validate_ClickPayload strict_env (VDict faulty_click_input)
  = Err [ {| loc := [LStr "element_id"]; typ := missing |};
          {| loc := [LStr "element_classes"; LInt 1]; typ := string_type |};
          {| loc := [LStr "position"; LStr "y"]; typ := int_parsing |} ].
Proof. vm_compute. reflexivity. Qed.


(** ** Assignment to an event *)

(** C8, as stated, fails: assigning to [url] on a built event succeeds and
    changes its [url]. *)
Lemma event_url_reassigned :
  ∃ e', setattr BaseEvent_Config (click_event "click") (Set_url "https://other.example/")
        = inr e'
      ∧ url e' ≠ url (click_event "click").
Proof. eexists. split; [reflexivity|]. simpl. discriminate. Qed.

(** C8, amended: the event classes are not frozen.  Their configuration sets
    [orm_mode] and [from_attributes] only, so an assignment to an attribute of
    a built event, an envelope field or the payload, succeeds; it replaces the
    assigned field and leaves every other field as it was built. *)
Theorem assignment_replaces_one_field {P} (e : Event P) (a : Assignment P) :
  ∃ e', setattr BaseEvent_Config e a = inr e'
    ∧ session_id e' = match a with Set_session_id u => u | _ => session_id e end
    ∧ website_id e' = match a with Set_website_id u => u | _ => website_id e end
    ∧ url e' = match a with Set_url s => s | _ => url e end
    ∧ timestamp e' = match a with Set_timestamp t => t | _ => timestamp e end
    ∧ event_type e' = match a with Set_event_type s => s | _ => event_type e end
    ∧ payload e' = match a with Set_payload p => p | _ => payload e end.
Proof. exists (assign e a). split; [reflexivity|]. by destruct a. Qed.

(** ** Storing an event *)

Section StorageFacts.
Context (SqlAlchemyEventModelTable :
  UUID → UUID → string → datetime → string → gmap string pyval → exn + Row).
Context (add_error : Session → Row → option exn) (commit_error : Session → option exn).

(** When every step goes through, the pending rows and the row of the event
    are committed. *)
Lemma store_event_success (event : EventModel) (s : Session) (row : Row) :
  event_row SqlAlchemyEventModelTable event = inr row →
  add_error s row = None →
  commit_error {| committed := committed s; pending := pending s ++ [row] |} = None →
  store_event SqlAlchemyEventModelTable add_error commit_error event s
  = ({| committed := committed s ++ pending s ++ [row]; pending := [] |}, inr ()).
Proof.
  intros Hrow Hadd Hcommit.
  unfold store_event, try_except, bind, lift, db_add, db_commit.
  rewrite Hrow. unfold ret. by rewrite Hadd, Hcommit.
Qed.

(** C2: whenever building the row, adding it or committing raises, whatever
    the event and the state of the session, [store_event] rolls the
    transaction back, so that the session shows the rows committed before and
    no other, and raises the storage error: an exception that carries the text
    of the cause in its message and the cause as its context. *)
Theorem store_event_failure (event : EventModel) (s : Session) (cause : exn) :
  (event_row SqlAlchemyEventModelTable event = inl cause
   ∨ (∃ row, event_row SqlAlchemyEventModelTable event = inr row
        ∧ (add_error s row = Some cause
           ∨ (add_error s row = None
              ∧ commit_error {| committed := committed s; pending := pending s ++ [row] |}
                = Some cause)))) →
  ∃ s' err,
    store_event SqlAlchemyEventModelTable add_error commit_error event s = (s', inl err)
    ∧ visible s' = committed s
    ∧ pending s' = []
    ∧ err = mk_exn "Exception" ("Failed to store event: " +:+ exn_str cause) (Some cause)
    ∧ exn_context err = Some cause.
Proof.
  intros Hfail. eexists _, _.
  split; [|split; [|split; [|split; [reflexivity|reflexivity]]]].
  - unfold store_event, try_except, bind, lift, db_add, db_commit, db_rollback.
    destruct Hfail as [Hrow|(row & Hrow & [Hadd|[Hadd Hcommit]])]; rewrite Hrow.
    + reflexivity.
    + unfold ret. rewrite Hadd. reflexivity.
    + unfold ret. rewrite Hadd, Hcommit. reflexivity.
  - unfold visible. simpl. apply app_nil_r.
  - reflexivity.
Qed.
End StorageFacts.

Lemma store_event_failure_witness :
  ∃ s' err,
    store_event sample_table add_succeeds commit_fails
      (IsClickEvent (click_event "click")) empty_session = (s', inl err)
    ∧ visible s' = []
    ∧ pending s' = []
    ∧ err = mk_exn "Exception" "Failed to store event: connection lost" (Some lost_connection)
    ∧ exn_context err = Some lost_connection.
Proof.
  apply (store_event_failure sample_table add_succeeds commit_fails
           (IsClickEvent (click_event "click")) empty_session lost_connection).
  right. eexists. split; [reflexivity|]. right. split; reflexivity.
Defined.

(** * Further properties of the models and of the storage *)

(** ** Keys that name no field *)

Lemma validate_Event_insert_unknown env {P} cls tag (validate_payload : pyval → result P)
    (d : gmap string pyval) (k : string) (x : pyval) :
  k ∉ event_field_names →
  validate_Event env cls tag validate_payload (VDict (<[k:=x]> d))
  = validate_Event env cls tag validate_payload (VDict d).
Proof.
  unfold event_field_names. rewrite !not_elem_of_cons. intros (? & ? & ? & ? & ? & ? & _).
  unfold validate_Event. simpl.
  by rewrite !required_insert_ne, !optional_insert_ne by done.
Qed.

(** A key that names no field of an event is no field set. *)
Lemma event_score_insert_unknown s (d : gmap string pyval) (k : string) (x : pyval) :
  k ∉ event_field_names →
  event_score s (VDict (<[k:=x]> d)) = event_score s (VDict d).
Proof.
  unfold event_field_names. rewrite !not_elem_of_cons. intros (? & ? & ? & ? & ? & ? & _).
  unfold_scores. by rewrite !lookup_insert_ne by done.
Qed.

(** A payload class looks at the fields it declares and at nothing else: a
    key of the record that is not the name of one of its fields changes
    neither the payload built nor the errors reported. *)
Theorem payload_ignores_unknown_keys env (s : Schema) (d : gmap string pyval)
    (k : string) (x : pyval) :
  k ∉ field_name <$> fields_of env s →
  validate_Payload env s (VDict (<[k:=x]> d)) = validate_Payload env s (VDict d).
Proof.
  destruct s; simpl; rewrite !not_elem_of_cons; intros Hk; destruct_and!;
    unfold_payloads; simpl;
    by rewrite ?required_insert_ne, ?optional_insert_ne by done.
Qed.

Lemma payload_ignores_unknown_keys_witness :
  validate_Payload strict_env Click (VDict (<["z_index" := VInt 3]> click_payload_input))
  = validate_Payload strict_env Click (VDict click_payload_input).
Proof.
  apply (payload_ignores_unknown_keys strict_env Click click_payload_input "z_index" (VInt 3)).
  simpl. rewrite !not_elem_of_cons. repeat split; try discriminate. apply not_elem_of_nil.
Defined.

(** An event class, and the union, look at the six fields of an event and at
    nothing else: any other key of the record changes neither the event built
    nor the errors reported. *)
Theorem event_ignores_unknown_keys env (d : gmap string pyval) (k : string) (x : pyval) :
  k ∉ event_field_names →
  (∀ s, validate_as env s (VDict (<[k:=x]> d)) = validate_as env s (VDict d))
  ∧ validate_EventModel env (VDict (<[k:=x]> d)) = validate_EventModel env (VDict d).
Proof.
  intros Hk. split.
  - intros s. destruct s; simpl; unfold_classes;
      by rewrite validate_Event_insert_unknown.
  - unfold validate_EventModel. apply union_ext.
    intros m Hm. unfold EventModel_members in Hm.
    rewrite !elem_of_cons, elem_of_nil in Hm.
    repeat destruct Hm as [->|Hm]; try done;
      (split; [|by apply event_score_insert_unknown]);
      simpl; unfold_classes; by rewrite validate_Event_insert_unknown.
Qed.

Lemma event_ignores_unknown_keys_witness :
  (∀ s, validate_as strict_env s (VDict (<["user_agent" := VStr "x"]> untagged_click_input))
        = validate_as strict_env s (VDict untagged_click_input))
  ∧ validate_EventModel strict_env (VDict (<["user_agent" := VStr "x"]> untagged_click_input))
    = validate_EventModel strict_env (VDict untagged_click_input).
Proof.
  apply (event_ignores_unknown_keys strict_env untagged_click_input "user_agent" (VStr "x")).
  unfold event_field_names. rewrite !not_elem_of_cons.
  repeat split; try discriminate. apply not_elem_of_nil.
Defined.

(** ** One class or none *)

(** Resolution gives an event exactly when at least one of the five classes
    validates the record, and the event it gives is the one a class that
    validates the record builds. *)
Theorem resolution_succeeds_iff_a_class_validates env (v : pyval) :
  (is_Ok (validate_EventModel env v) = true ↔ ∃ s, is_Ok (validate_as env s v) = true)
  ∧ ∀ e, validate_EventModel env v = Ok e → ∃ s, validate_as env s v = Ok e.
Proof.
  split.
  - rewrite is_Ok_validate_EventModel. simpl. rewrite !orb_true_iff. split.
    + intros H. repeat destruct H as [H|H]; try discriminate;
        [exists Click|exists Scroll|exists MouseMovement|exists Keypress
        |exists WindowResize]; exact H.
    + intros [[] H]; auto 10.
  - intros e H%validate_EventModel_class.
    destruct e; [exists Click|exists Scroll|exists MouseMovement|exists Keypress
                |exists WindowResize]; simpl; by rewrite H.
Qed.

(** ** The envelope *)

Lemma validate_Event_missing env {P} cls tag (validate_payload : pyval → result P)
    (d : gmap string pyval) (name : string) :
  name ∈ required_event_fields → d !! name = None →
  is_Ok (validate_Event env cls tag validate_payload (VDict d)) = false
  ∧ {| loc := [LStr name]; typ := missing |}
      ∈ errors (validate_Event env cls tag validate_payload (VDict d)).
Proof.
  unfold required_event_fields. rewrite !elem_of_cons, elem_of_nil.
  intros Hname Hd. unfold validate_Event. simpl.
  repeat first [rewrite is_Ok_ap | rewrite is_Ok_map | rewrite errors_ap | rewrite errors_map].
  rewrite !elem_of_app.
  destruct Hname as [->|[->|[->|[->|[]]]]];
    (unfold required at 1 2 3 4 5 6 7 8; rewrite Hd; simpl; split;
      [by rewrite ?andb_false_r | rewrite list_elem_of_singleton; tauto]).
Qed.

(** [session_id], [website_id], [url] and [payload] are required by every
    event class: a record that lacks one of them is refused by each of the
    five classes, which reports the field as missing, and resolves to no
    event. *)
Theorem envelope_fields_required env (d : gmap string pyval) (name : string) :
  name ∈ required_event_fields → d !! name = None →
  (∀ s, ∃ es, validate_as env s (VDict d) = Err es
         ∧ {| loc := [LStr name]; typ := missing |} ∈ es)
  ∧ is_Ok (validate_EventModel env (VDict d)) = false.
Proof.
  intros Hname Hd.
  assert (∀ s, is_Ok (validate_as env s (VDict d)) = false
             ∧ {| loc := [LStr name]; typ := missing |} ∈ errors (validate_as env s (VDict d)))
    as Hs.
  { intros s. destruct s; simpl; rewrite is_Ok_map, errors_map; unfold_classes;
      by apply validate_Event_missing. }
  split.
  - intros s. destruct (Hs s) as [Hfail Hin]. apply is_Ok_false in Hfail.
    eexists. split; [exact Hfail|done].
  - rewrite is_Ok_validate_EventModel. unfold existsb.
    by rewrite (proj1 (Hs Click)), (proj1 (Hs Scroll)), (proj1 (Hs MouseMovement)),
      (proj1 (Hs Keypress)), (proj1 (Hs WindowResize)).
Qed.

Lemma envelope_fields_required_witness :
  (∀ s, ∃ es, validate_as strict_env s (VDict (delete "url" untagged_click_input)) = Err es
         ∧ {| loc := [LStr "url"]; typ := missing |} ∈ es)
  ∧ is_Ok (validate_EventModel strict_env (VDict (delete "url" untagged_click_input))) = false.
Proof.
  apply (envelope_fields_required strict_env (delete "url" untagged_click_input) "url").
  - unfold required_event_fields. do 2 right. left.
  - apply lookup_delete_eq.
Defined.

(** [timestamp] is optional.  The timestamp of an event is what the value the
    record gives validates to, and the reading of the clock when the record
    gives none; and a record a class accepts is still accepted without its
    timestamp, as the same event stamped with the clock. *)
Theorem timestamp_given_or_clock env (s : Schema) (d : gmap string pyval) (e : EventModel) :
  validate_as env s (VDict d) = Ok e →
  match d !! "timestamp" with
  | Some x => datetime_v env x = Ok (timestamp_of e)
  | None => timestamp_of e = now env
  end
  ∧ validate_as env s (VDict (delete "timestamp" d)) = Ok (with_timestamp (now env) e).
Proof.
  intros H.
  destruct s; simpl in *; apply result_map_Ok in H as (a & Ha & ->); unfold_classes;
    apply validate_Event_Ok in Ha as (d' & [= <-] & H1 & H2 & H3 & H4 & H5 & H6);
    unfold timestamp_of; simpl;
    (split; [exact (proj1 (optional_Ok _ _ _ _ _) H4)|]);
    apply result_map_Ok; eexists; (split; [|reflexivity]);
    apply validate_Event_Ok; exists (delete "timestamp" d); simpl;
    rewrite !required_delete_ne, (optional_delete_ne _ _ "event_type") by done;
    repeat split; try done;
    unfold optional; by rewrite lookup_delete_eq.
Qed.

Lemma timestamp_given_or_clock_witness :
  match untagged_click_input !! "timestamp" with
  | Some x => datetime_v strict_env x = Ok new_year
  | None => new_year = now strict_env
  end
  ∧ validate_as strict_env Click (VDict (delete "timestamp" untagged_click_input))
    = Ok (with_timestamp (now strict_env) (IsClickEvent (click_event "click"))).
Proof.
  apply (timestamp_given_or_clock strict_env Click untagged_click_input
           (IsClickEvent (click_event "click"))).
  vm_compute. reflexivity.
Defined.

(** ** Payloads: defaults, round trip, positions *)

(** The optional fields of the payloads take their defaults when the record
    leaves them out: no CSS class for a click, and each of the four modifier
    keys, independently of the others, not pressed for a keypress. *)
Theorem payload_defaults env (d : gmap string pyval) :
  (∀ p, validate_ClickPayload env (VDict d) = Ok p →
        d !! "element_classes" = None → element_classes p = [])
  ∧ (∀ p, validate_KeypressPayload env (VDict d) = Ok p →
        (d !! "alt_key" = None → alt_key p = false)
        ∧ (d !! "ctrl_key" = None → ctrl_key p = false)
        ∧ (d !! "shift_key" = None → shift_key p = false)
        ∧ (d !! "meta_key" = None → meta_key p = false)).
Proof.
  split; intros p H.
  - apply validate_ClickPayload_Ok in H as (d' & [= <-] & _ & H & _).
    apply optional_Ok in H. intros Hd. by rewrite Hd in H.
  - unfold validate_KeypressPayload in H. simpl in H. invert_Ok H. simpl.
    repeat match goal with
    | H : optional _ _ _ _ = Ok _ |- _ => apply optional_Ok in H
    end.
    repeat split; intros Hd;
      match goal with
      | H : context [d !! ?k], Hd : d !! ?k = None |- _ => by rewrite Hd in H
      end.
Qed.

(** Every payload, of any of the five classes and with any field values, is
    what its class builds from its own [model_dump]: the payload classes
    constrain the types of the fields and nothing else. *)
Theorem payload_round_trip env (p : Payload) :
  validate_Payload env (schema_of p) (VDict (dump_Payload p)) = Ok p.
Proof.
  destruct p; simpl.
  - by rewrite validate_ClickPayload_dump.
  - by rewrite validate_ScrollPayload_dump.
  - by rewrite validate_MouseMovementPayload_dump.
  - by rewrite validate_KeypressPayload_dump.
  - by rewrite validate_WindowResizePayload_dump.
Qed.

(** The positions of an accepted mouse-movement payload are as many as the
    mappings of the input list, the empty list included, in the same order,
    and each has exactly the keys of its mapping, whatever they are. *)
Theorem positions_as_given env (v : pyval) (p : MouseMovementPayload) :
  validate_MouseMovementPayload env v = Ok p →
  ∃ d l, v = VDict d ∧ d !! "positions" = Some (VList l)
    ∧ Forall2 (λ x m, ∃ pos, x = VDict pos ∧ dom m = dom pos) l (positions p).
Proof.
  unfold validate_MouseMovementPayload.
  destruct (model_input _ _ v) as [d|] eqn:Hd; [|done].
  apply model_input_Ok in Hd as ->. intros H. invert_Ok H. simpl.
  apply required_Ok in H as (x & Hx & (l & -> & Hl)%list_v_Ok).
  exists d, l. repeat split; [done|].
  eapply Forall2_impl; [exact Hl|]. simpl. intros y m Hy.
  pose proof Hy as (pos & -> & _)%dict_v_Ok. exists pos. split; [done|].
  by eapply dict_v_dom.
Qed.

Lemma payload_defaults_witness :
  (bare_keypress_input !! "alt_key" = None → alt_key bare_keypress = false)
  ∧ (bare_keypress_input !! "ctrl_key" = None → ctrl_key bare_keypress = false)
  ∧ (bare_keypress_input !! "shift_key" = None → shift_key bare_keypress = false)
  ∧ (bare_keypress_input !! "meta_key" = None → meta_key bare_keypress = false).
Proof.
  apply (proj2 (payload_defaults strict_env bare_keypress_input) bare_keypress).
  vm_compute. reflexivity.
Defined.

Lemma positions_as_given_witness :
  ∃ d l, VDict drag_input = VDict d ∧ d !! "positions" = Some (VList l)
    ∧ Forall2 (λ x m, ∃ pos, x = VDict pos ∧ dom m = dom pos) l (positions drag).
Proof.
  apply (positions_as_given strict_env (VDict drag_input) drag).
  vm_compute. reflexivity.
Defined.

(** ** Batches and requests *)

(** A batch is validated as a whole: one record that resolves to no event
    makes the batch payload fail, whatever the other records are, and the
    errors of that record are reported under "events" and its index. *)
Theorem batch_fails_on_one_bad_record env (d : gmap string pyval) (l : list pyval)
    (i : nat) (x : pyval) :
  d !! "events" = Some (VList l) → l !! i = Some x →
  is_Ok (validate_EventModel env x) = false →
  ∃ es, validate_BatchEventPayload env (VDict d) = Err es
    ∧ ∀ e, e ∈ errors (validate_EventModel env x) →
        under (LStr "events") (under (LInt i) e) ∈ es.
Proof.
  intros Hd Hi Hx.
  destruct (list_v_element (validate_EventModel env) l i x Hi Hx) as [Hfail Herr].
  unfold validate_BatchEventPayload. simpl. unfold required. rewrite Hd.
  destruct (list_v (validate_EventModel env) (VList l)) as [?|es]; [done|].
  simpl. eexists. split; [done|].
  intros e He. apply list_elem_of_fmap_2. by apply Herr.
Qed.

Lemma batch_fails_on_one_bad_record_witness :
  ∃ es, validate_BatchEventPayload strict_env (VDict half_bad_batch_input) = Err es
    ∧ ∀ e, e ∈ errors (validate_EventModel strict_env (VDict (delete "url" untagged_click_input))) →
        under (LStr "events") (under (LInt 1) e) ∈ es.
Proof.
  apply (batch_fails_on_one_bad_record strict_env half_bad_batch_input
           [ VDict untagged_click_input; VDict (delete "url" untagged_click_input) ] 1).
  - reflexivity.
  - reflexivity.
  - vm_compute. reflexivity.
Defined.

(** The record of an event resolves to the event, whatever its tag. *)
Lemma validate_EventModel_dump env (e : EventModel) :
  validate_EventModel env (VDict (dump_EventModel e)) = Ok e.
Proof.
  apply (validate_EventModel_unique env (schema_of_event e)).
  - destruct e as [e|e|e|e|e]; simpl; unfold on_event; unfold_classes;
      rewrite validate_Event_dump; first
        [ done | apply validate_ClickPayload_dump | apply validate_ScrollPayload_dump
        | apply validate_MouseMovementPayload_dump | apply validate_KeypressPayload_dump
        | apply validate_WindowResizePayload_dump ].
  - intros s' Hs'.
    destruct e as [e|e|e|e|e], s'; try done; exfalso;
      simpl in Hs'; rewrite is_Ok_map in Hs'; unfold on_event in Hs'; unfold_classes;
      match type of Hs' with
      | ?r = true => assert (r = false) as Hno by payload_refused
      end; congruence.
Qed.

(** Every batch request, with any number of events of any classes, in any
    order and with any tags, is what [BatchEventRequest] builds from its own
    [model_dump]: the events come back the same, in the same order. *)
Theorem batch_request_round_trip env (r : BatchEventRequest.t) :
  BatchEventRequest.validate env (VDict (dump_BatchEventRequest r)) = Ok r.
Proof.
  assert (∀ b, validate_BatchEventPayload env (VDict (dump_BatchEventPayload b)) = Ok b)
    as Hbatch.
  { intros b.
    unfold validate_BatchEventPayload, model_input, dump_BatchEventPayload, required.
    rewrite lookup_singleton_eq.
    rewrite (list_v_dump (validate_EventModel env) (λ e, VDict (dump_EventModel e)))
      by apply validate_EventModel_dump.
    by destruct b. }
  unfold BatchEventRequest.validate, model_input, dump_BatchEventRequest, required.
  rewrite lookup_singleton_eq, Hbatch. by destruct r.
Qed.

(** A response is built from any flag, any count, negative ones included, and
    any message: the three fields are required and are not tied to one
    another. *)
Theorem batch_response_round_trip env (r : BatchEventResponse) :
  validate_BatchEventResponse env (VDict (dump_BatchEventResponse r)) = Ok r
  ∧ ∀ name, name ∈ ["success"; "processed_event_count"; "message"] →
      ∃ es, validate_BatchEventResponse env
              (VDict (delete name (dump_BatchEventResponse r))) = Err es
        ∧ {| loc := [LStr name]; typ := missing |} ∈ es.
Proof.
  split.
  - unfold validate_BatchEventResponse, dump_BatchEventResponse, required. simpl.
    map_lookup. by destruct r.
  - intros name. rewrite !elem_of_cons, elem_of_nil.
    intros [->|[->|[->|[]]]];
      unfold validate_BatchEventResponse, dump_BatchEventResponse, required; simpl;
      map_lookup; simpl; eexists; (split; [reflexivity|]); by left.
Qed.

Lemma batch_response_round_trip_witness :
  ∃ es, validate_BatchEventResponse strict_env
          (VDict (delete "message" (dump_BatchEventResponse sample_response))) = Err es
    ∧ {| loc := [LStr "message"]; typ := missing |} ∈ es.
Proof.
  apply (proj2 (batch_response_round_trip strict_env sample_response) "message").
  do 2 right. left.
Defined.

(** ** More on storing an event *)

Lemma store_event_success_witness :
  store_event sample_table add_succeeds commit_succeeds
    (IsClickEvent (click_event "click")) busy_session
  = ({| committed := committed busy_session ++ pending busy_session
          ++ [mk_Row 1%N 2%N "https://shop.example/" new_year "click"
                (dump_ClickPayload buy_click)];
        pending := [] |}, inr ()).
Proof.
  apply (store_event_success sample_table add_succeeds commit_succeeds
           (IsClickEvent (click_event "click")) busy_session); reflexivity.
Defined.

Section StorageOutcomes.
Context (SqlAlchemyEventModelTable :
  UUID → UUID → string → datetime → string → gmap string pyval → exn + Row).
Context (add_error : Session → Row → option exn) (commit_error : Session → option exn).

(** The two ways [store_event] ends: the row of the event committed together
    with the rows that were pending, or the session rolled back and an
    exception raised. *)
Lemma store_event_outcome (event : EventModel) (s : Session) :
  (∃ row, event_row SqlAlchemyEventModelTable event = inr row
     ∧ store_event SqlAlchemyEventModelTable add_error commit_error event s
       = ({| committed := committed s ++ pending s ++ [row]; pending := [] |}, inr ()))
  ∨ (∃ err, store_event SqlAlchemyEventModelTable add_error commit_error event s
       = ({| committed := committed s; pending := [] |}, inl err)).
Proof.
  unfold store_event, try_except, bind, lift, db_add, db_commit, db_rollback.
  destruct (event_row SqlAlchemyEventModelTable event) as [c|row]; [right; by eexists|].
  unfold ret. destruct (add_error s row) as [c|]; [right; by eexists|].
  destruct (commit_error _) as [c|]; [right; by eexists|].
  left. by exists row.
Qed.

(** [store_event] never leaves a transaction open and never loses a committed
    row: after the call, whether it returned or raised, the session has no
    pending row and the rows committed before are still there, at the front
    and in their order; and when it raised, nothing else is there. *)
Theorem store_event_closes_transaction (event : EventModel) (s : Session) :
  pending (store_event SqlAlchemyEventModelTable add_error commit_error event s).1 = []
  ∧ committed s
      `prefix_of` committed (store_event SqlAlchemyEventModelTable add_error commit_error event s).1
  ∧ (∀ err,
       (store_event SqlAlchemyEventModelTable add_error commit_error event s).2 = inl err →
       committed (store_event SqlAlchemyEventModelTable add_error commit_error event s).1
       = committed s).
Proof.
  destruct (store_event_outcome event s) as [(row & _ & ->)|(err & ->)]; simpl.
  - repeat split; [by eexists|done].
  - repeat split; done.
Qed.

(** The transaction is per event: when an event was stored and storing the
    next one raises, the row of the first event stays committed, as do the
    rows committed or pending before it, and the session is left with no
    pending row. *)
Theorem store_event_failure_keeps_earlier_rows (e1 e2 : EventModel) (s s1 s2 : Session)
    (err : exn) :
  store_event SqlAlchemyEventModelTable add_error commit_error e1 s = (s1, inr ()) →
  store_event SqlAlchemyEventModelTable add_error commit_error e2 s1 = (s2, inl err) →
  ∃ row1, event_row SqlAlchemyEventModelTable e1 = inr row1
    ∧ committed s2 = committed s ++ pending s ++ [row1]
    ∧ pending s2 = [].
Proof.
  intros H1 H2.
  destruct (store_event_outcome e1 s) as [(row1 & Hrow1 & Hs1)|(err1 & Hs1)];
    rewrite Hs1 in H1; [|done]. injection H1 as <-.
  match type of H2 with store_event _ _ _ _ ?s1 = _ =>
    destruct (store_event_outcome e2 s1) as [(row2 & _ & Hs2)|(err2 & Hs2)]
  end; rewrite Hs2 in H2; [done|]. injection H2 as <- _.
  by exists row1.
Qed.
(** Nothing is deduplicated or reordered: two events stored one after the
    other, the same event twice included, leave their two rows at the end of
    the table in the order of the calls. *)
Theorem store_event_appends_in_call_order (e1 e2 : EventModel) (s s1 s2 : Session) :
  store_event SqlAlchemyEventModelTable add_error commit_error e1 s = (s1, inr ()) →
  store_event SqlAlchemyEventModelTable add_error commit_error e2 s1 = (s2, inr ()) →
  ∃ row1 row2,
    event_row SqlAlchemyEventModelTable e1 = inr row1
    ∧ event_row SqlAlchemyEventModelTable e2 = inr row2
    ∧ committed s2 = committed s ++ pending s ++ [row1; row2]
    ∧ pending s2 = [].
Proof.
  intros H1 H2.
  destruct (store_event_outcome e1 s) as [(row1 & Hrow1 & Hs1)|(err1 & Hs1)];
    rewrite Hs1 in H1; [|done]. injection H1 as <-.
  match type of H2 with store_event _ _ _ _ ?s1 = _ =>
    destruct (store_event_outcome e2 s1) as [(row2 & Hrow2 & Hs2)|(err2 & Hs2)]
  end; rewrite Hs2 in H2; [|done]. injection H2 as <-.
  exists row1, row2. repeat split; [done..|]. simpl.
  by rewrite <- !app_assoc.
Qed.
End StorageOutcomes.

Lemma store_event_failure_keeps_earlier_rows_witness :
  ∃ row1, event_row sample_table (IsClickEvent (click_event "click")) = inr row1
    ∧ committed one_click_stored = committed empty_session ++ pending empty_session ++ [row1]
    ∧ pending one_click_stored = [].
Proof.
  apply (store_event_failure_keeps_earlier_rows sample_table add_succeeds commit_once
           (IsClickEvent (click_event "click")) (IsClickEvent (click_event "hover"))
           empty_session one_click_stored one_click_stored
           (mk_exn "Exception" "Failed to store event: connection lost" (Some lost_connection)));
    reflexivity.
Defined.

Lemma store_event_appends_in_call_order_witness :
  ∃ row1 row2,
    event_row sample_table (IsClickEvent (click_event "click")) = inr row1
    ∧ event_row sample_table (IsClickEvent (click_event "click")) = inr row2
    ∧ committed two_clicks_stored
      = committed empty_session ++ pending empty_session ++ [row1; row2]
    ∧ pending two_clicks_stored = [].
Proof.
  apply (store_event_appends_in_call_order sample_table add_succeeds commit_succeeds
           (IsClickEvent (click_event "click")) (IsClickEvent (click_event "click"))
           empty_session one_click_stored two_clicks_stored); reflexivity.
Defined.

(** ** Strings are kept as they are *)

(** The strings of a click are never converted: in an accepted click payload
    [element_id] is the string of the record, and [element_classes], when the
    record gives it, is the list of strings of the record, the same strings in
    the same order, repeated ones included. *)
Theorem click_strings_verbatim env (d : gmap string pyval) (p : ClickPayload) :
  validate_ClickPayload env (VDict d) = Ok p →
  d !! "element_id" = Some (VStr (element_id p))
  ∧ ∀ x, d !! "element_classes" = Some x → x = VList (VStr <$> element_classes p).
Proof.
  intros (d' & [= <-] & H1 & H2 & _)%validate_ClickPayload_Ok. split.
  - apply required_Ok in H1 as (x & Hx & ->%str_v_Ok). done.
  - intros x Hx. apply optional_Ok in H2. rewrite Hx in H2.
    apply list_v_Ok in H2 as (l & -> & Hl). f_equal.
    clear Hx. revert Hl. generalize (element_classes p). intros l' Hl.
    induction Hl as [|y s l l' Hy _ IH]; [done|].
    apply str_v_Ok in Hy as ->. simpl. by rewrite IH.
Qed.

Lemma click_strings_verbatim_witness :
  styled_click_input !! "element_id" = Some (VStr (element_id styled_click))
  ∧ ∀ x, styled_click_input !! "element_classes" = Some x →
      x = VList (VStr <$> element_classes styled_click).
Proof.
  apply (click_strings_verbatim strict_env styled_click_input styled_click).
  vm_compute. reflexivity.
Defined.
